(** * AreaChart and Baseline of react-timeseries-charts

    A shallow embedding of
    [packages/react-timeseries-charts/src/components/AreaChart.tsx] and
    [packages/react-timeseries-charts/dist/Baseline.js].

    - JavaScript numbers are IEEE 754 binary64 values: the kernel's [float].
    - JavaScript objects used as dictionaries (style objects, CSS property
      bags) are [gmap string _]; a missing key reads as [None] (undefined).
    - Effects (console output, [stopPropagation], calls of the callback
      props, a thrown [TypeError]) are recorded by the monad [M].
    - What lives outside the two source files (pondjs, d3-shape, the
      [merge] package, [JSON.stringify], [../js/util], [../js/styler],
      [../js/curve]) is collected in the class [Externals]. *)

From Stdlib Require Import PrimFloat.
From stdpp Require Import gmap strings list pretty.

Abbreviation number := float (only parsing).

Open Scope float_scope.
Open Scope stdpp_scope.

(** ** JavaScript values used by the components *)

(** [x !== y] on numbers: IEEE comparison, so [NaN !== NaN] holds. *)
Definition number_strict_neq (x y : number) : bool := negb (PrimFloat.eqb x y).

(** [x !== y] on values with structural identity (strings, undefined). *)
Definition strict_neq `{EqDecision A} (x y : A) : bool := negb (bool_decide (x = y)).

(** An object compared by reference: [===] looks at the address only. *)
Record object (A : Type) := Object { address : positive; deref : A }.
Arguments Object {A} _ _.
Arguments address {A} _.
Arguments deref {A} _.

Definition ref_strict_neq {A} (x y : object A) : bool :=
  negb (Pos.eqb (address x) (address y)).

(** Truthiness of an optional string prop: undefined and the empty string
    are falsy. *)
Definition truthy_string (s : option string) : bool :=
  match s with
  | Some s => negb (String.eqb s "")
  | None => false
  end.

(** Truthiness of an optional boolean prop. *)
Definition truthy_bool (b : option bool) : bool :=
  match b with
  | Some b => b
  | None => false
  end.

(** ** Style objects *)

Inductive CssValue :=
  | css_string (s : string)
  | css_number (n : number).

(** [CSSProperties = { [key: string]: any }] *)
Abbreviation CSSProperties := (gmap string CssValue) (only parsing).
(** [lineStyle] / [areaStyle]: the variants normal, highlighted, selected,
    muted, each optional at run time. *)
Abbreviation VariantStyles := (gmap string (gmap string CssValue)) (only parsing).
(** [AreaChartStyle]: the sub-keys line and area, each optional at run time. *)
Abbreviation AreaChartStyle := (gmap string (gmap string (gmap string CssValue))) (only parsing).

Definition defaultStyle : AreaChartStyle :=
  {[ "line" :=
       {[ "normal" := {[ "stroke" := css_string "steelblue"; "fill" := css_string "none";
                         "strokeWidth" := css_number 1 ]};
          "highlighted" := {[ "stroke" := css_string "#5a98cb"; "fill" := css_string "none";
                              "strokeWidth" := css_number 1 ]};
          "selected" := {[ "stroke" := css_string "steelblue"; "fill" := css_string "none";
                           "strokeWidth" := css_number 1 ]};
          "muted" := {[ "stroke" := css_string "steelblue"; "fill" := css_string "none";
                        "opacity" := css_number 0x1.999999999999ap-2;
                        "strokeWidth" := css_number 1 ]} ]};
     "area" :=
       {[ "normal" := {[ "fill" := css_string "steelblue"; "stroke" := css_string "none";
                         "opacity" := css_number 0.75 ]};
          "highlighted" := {[ "fill" := css_string "#5a98cb"; "stroke" := css_string "none";
                              "opacity" := css_number 0.75 ]};
          "selected" := {[ "fill" := css_string "steelblue"; "stroke" := css_string "none";
                           "opacity" := css_number 0.75 ]};
          "muted" := {[ "fill" := css_string "steelblue"; "stroke" := css_string "none";
                        "opacity" := css_number 0.25 ]} ]} ]}.

(** [defaultStyle[type][variant]] *)
Definition defaultVariant (type variant : string) : option CSSProperties :=
  match defaultStyle !! type with
  | Some variants => variants !! variant
  | None => None
  end.

(** ** Effects *)

(** A React synthetic mouse event and a callback function, as handles. *)
Inductive MouseEvent := mouse_event (id : nat).
Inductive Callback := callback (id : nat).

Inductive LogArg :=
  | log_styleMap (styleMap : option AreaChartStyle)
  | log_column (column : string).

Inductive Effect :=
  | console_error (message : string) (args : list LogArg)
  | stop_propagation (e : MouseEvent)
  | call (f : Callback) (arg : option string).

(** Reading property [key] of undefined. *)
Inductive Exn := TypeError (key : string).

Inductive outcome (A : Type) :=
  | Returned (a : A)
  | Thrown (e : Exn).
Arguments Returned {A} _.
Arguments Thrown {A} _.

(** A computation: the effects it performed, in order, and how it ended.
    Nothing happens after a throw. *)
Record M (A : Type) := Run { trace : list Effect; result : outcome A }.
Arguments Run {A} _ _.
Arguments trace {A} _.
Arguments result {A} _.

#[global] Instance M_ret : MRet M := λ A a, Run [] (Returned a).
#[global] Instance M_bind : MBind M := λ A B f m,
  match result m with
  | Returned a => Run (trace m ++ trace (f a)) (result (f a))
  | Thrown e => Run (trace m) (Thrown e)
  end.

Definition emit (e : Effect) : M unit := Run [e] (Returned tt).
Definition throw {A} (e : Exn) : M A := Run [] (Thrown e).
Definition when (b : bool) (m : M unit) : M unit := if b then m else mret tt.

(** [o[key]] for a dictionary object [o] that may be undefined. *)
Definition member {A} (o : option (gmap string A)) (key : string) : M (option A) :=
  match o with
  | Some m => mret (m !! key)
  | None => throw (TypeError key)
  end.

(** underscore's [_.has(obj, key)]: false on undefined. *)
Definition has {A} (obj : option (gmap string A)) (key : string) : bool :=
  match obj with
  | Some m => bool_decide (is_Some (m !! key))
  | None => false
  end.

Definition is_console_error (e : Effect) : bool :=
  match e with
  | console_error _ _ => true
  | _ => false
  end.

(** A trace made of console messages only. *)
Definition only_logs (t : list Effect) : Prop := Forall (λ e, is_console_error e = true) t.

(** ** The data rows handed to d3 *)

Record Point := { x0 : number; y0 : number; y1 : number }.

Record AreaChartColumns := { up : option (list string); down : option (list string) }.

(** ** What the component imports *)

Class Externals := {
  (** pondjs: a [TimeSeries] is read through [size()] and [at(j)], an event
      through [timestamp()] and [get(column)]; [get] is the number that
      [dir * seriesPoint.get(column)] multiplies. *)
  Time : Type;
  Event : Type;
  timestamp : Event → Time;
  get : Event → string → number;
  TimeSeries_is : list Event → list Event → bool;
  (** [TimeSeries.is] is value equality ([Immutable.is]). *)
  TimeSeries_is_refl : ∀ s, TimeSeries_is s s = true;
  (** [../js/util] *)
  scaleAsString : (Time → number) → string;
  (** [../js/styler]: [styler.areaChartStyle()] *)
  Styler : Type;
  areaChartStyle : Styler → gmap string AreaChartStyle;
  (** the [merge] package: [merge(clone, a, b)] *)
  merge : bool → option CSSProperties → option CSSProperties → CSSProperties;
  (** [JSON.stringify] at the two types it is used at *)
  JSON_stringify_columns : AreaChartColumns → option string;
  JSON_stringify_style : option (Styler + gmap string AreaChartStyle) → option string;
  (** [../js/curve] and d3-shape: [area().curve(c).x(fx).y0(fy0).y1(fy1)]
      and [line().curve(c).x(fx).y(fy)], applied to the data.  The
      generators are taken where d3 returns a path: [curves] has an entry
      for the interpolation prop.  With no entry d3 throws inside the
      generator, an error path outside this model. *)
  Curve : Type;
  Path : Type;
  curves : string → Curve;
  area : Curve → (Point → number) → (Point → number) → (Point → number) → list Point → Path;
  line : Curve → (Point → number) → (Point → number) → list Point → Path;
}.

(** ** Props *)

Module Props.
Section Props.
Context `{Externals}.

(** [AreaChartProps]; [axis] is never read by the component.  The style
    prop is absent, a [Styler], or an object keyed by column. *)
Record t := {
  series : list Event;
  timeScale : Time → number;
  yScale : object (number → number);
  width : number;
  columns : AreaChartColumns;
  style : option (Styler + gmap string AreaChartStyle);
  interpolation : string;
  stack : option bool;
  highlight : option string;
  selection : option string;
  onHighlightChange : option Callback;
  onSelectionChange : option Callback;
}.
End Props.
End Props.

(** ** SVG output *)

#[warnings="-register-all"]
Inductive Element `{Externals} :=
  | g (key : option string) (children : list Element)
  | children_array (items : list Element)
  | path (d : Path) (style : CSSProperties)
         (onClick : MouseEvent → M unit)
         (onMouseLeave : unit → M unit)
         (onMouseMove : MouseEvent → M unit).

(** ** The component *)

Module AreaChart.
Section AreaChart.
Context `{Externals}.

Section Methods.
Variable props : Props.t.

Definition shouldComponentUpdate (nextProps : Props.t) : bool :=
  let newSeries := Props.series nextProps in
  let oldSeries := Props.series props in
  let width := Props.width nextProps in
  let timeScale := Props.timeScale nextProps in
  let yScale := Props.yScale nextProps in
  let interpolation := Props.interpolation nextProps in
  let columns := Props.columns nextProps in
  let style := Props.style nextProps in
  let highlight := Props.highlight nextProps in
  let selection := Props.selection nextProps in
  let widthChanged := number_strict_neq (Props.width props) width in
  let timeScaleChanged :=
    strict_neq (scaleAsString (Props.timeScale props)) (scaleAsString timeScale) in
  let yAxisScaleChanged := ref_strict_neq (Props.yScale props) yScale in
  let interpolationChanged := strict_neq (Props.interpolation props) interpolation in
  let columnsChanged :=
    strict_neq (JSON_stringify_columns (Props.columns props))
               (JSON_stringify_columns columns) in
  let styleChanged :=
    strict_neq (JSON_stringify_style (Props.style props)) (JSON_stringify_style style) in
  let highlightChanged := strict_neq (Props.highlight props) highlight in
  let selectionChanged := strict_neq (Props.selection props) selection in
  let seriesChanged :=
    if negb (length oldSeries =? length newSeries)%nat then true
    else negb (TimeSeries_is oldSeries newSeries) in
  seriesChanged ||
  timeScaleChanged ||
  widthChanged ||
  interpolationChanged ||
  columnsChanged ||
  styleChanged ||
  yAxisScaleChanged ||
  highlightChanged ||
  selectionChanged.

Definition handleHover (e : MouseEvent) (column : string) : M unit :=
  match Props.onHighlightChange props with
  | Some onHighlightChange => emit (call onHighlightChange (Some column))
  | None => mret tt
  end.

Definition handleHoverLeave : M unit :=
  match Props.onHighlightChange props with
  | Some onHighlightChange => emit (call onHighlightChange None)
  | None => mret tt
  end.

Definition handleClick (e : MouseEvent) (column : string) : M unit :=
  emit (stop_propagation e);;
  match Props.onSelectionChange props with
  | Some onSelectionChange => emit (call onSelectionChange (Some column))
  | None => mret tt
  end.

(** The branch for a function-valued style prop can never be taken
    (a function is an object for [_.isObject]) and is omitted. *)
Definition providedAreaStyleMap (column : string) : option AreaChartStyle :=
  match Props.style props with
  | Some (inl styler) => areaChartStyle styler !! column
  | Some (inr object) => object !! column
  | None => Some defaultStyle
  end.

(** [merge(true, defaultStyle[type].v, styleMap[type].v ? styleMap[type].v : {})] *)
Definition mergeVariant (styleMap : option AreaChartStyle) (type variant : string)
  : M CSSProperties :=
  default_t ← member (Some defaultStyle) type;
  default_v ← member default_t variant;
  provided_t ← member styleMap type;
  provided_v ← member provided_t variant;
  mret (merge true default_v
          (Some (match provided_v with Some v => v | None => ∅ end))).

Definition style (column type : string) : M CSSProperties :=
  let styleMap := providedAreaStyleMap column in
  let isHighlighted :=
    truthy_string (Props.highlight props)
    && bool_decide (Some column = Props.highlight props) in
  let isSelected :=
    truthy_string (Props.selection props)
    && bool_decide (Some column = Props.selection props) in
  when (negb (has styleMap "line"))
    (emit (console_error
             "Provided style for AreaChart does not define a style for the outline:"
             [log_styleMap styleMap; log_column column]));;
  when (negb (has styleMap "area"))
    (emit (console_error
             "Provided style for AreaChart does not define a style for the area:"
             [log_styleMap styleMap]));;
  if truthy_string (Props.selection props) then
    if isSelected then mergeVariant styleMap type "selected"
    else if isHighlighted then mergeVariant styleMap type "highlighted"
    else mergeVariant styleMap type "muted"
  else if isHighlighted then mergeVariant styleMap type "highlighted"
  else mergeVariant styleMap type "normal".

Definition pathStyle (column : string) : M CSSProperties := style column "line".

Definition areaStyle (column : string) : M CSSProperties := style column "area".

(** [direction === "up" ? 1 : -1] *)
Definition dirOf (direction : string) : number :=
  if String.eqb direction "up" then 1 else -1.

(** [offsets[j]]; reading past the end gives undefined, NaN in arithmetic. *)
Definition offset_at (offsets : list number) (j : nat) : number :=
  default nan (offsets !! j).

(** The loop [for (let j = 0; j < series.size(); j += 1)] of one column:
    [rest] holds the rows [series.at(j)], [series.at(j + 1)], ...
    still to be visited.  [data] and [offsets] are the two arrays the
    body updates. *)
Fixpoint stackLoop (dir : number) (column : string) (rest : list Event) (j : nat)
    (data : list Point) (offsets : list number) : list Point * list number :=
  match rest with
  | [] => (data, offsets)
  | seriesPoint :: rest =>
      let data := data ++
        [ {| x0 := Props.timeScale props (timestamp seriesPoint);
             y0 := deref (Props.yScale props) (offset_at offsets j);
             y1 := deref (Props.yScale props)
                     (offset_at offsets j + dir * get seriesPoint column) |} ] in
      let offsets :=
        if truthy_bool (Props.stack props)
        then <[ j := offset_at offsets j + dir * get seriesPoint column ]> offsets
        else offsets in
      stackLoop dir column rest (S j) data offsets
  end.

(** "Stack the series columns to get our data in x0, y0, y1 format" *)
Definition stackColumn (dir : number) (column : string) (offsets : list number)
  : list Point * list number :=
  stackLoop dir column (Props.series props) 0 [] offsets.

(** The two [<path>] elements of one column, in their [<g>]. *)
Definition columnGroup (i : nat) (column : string)
    (style pathStyle : CSSProperties) (data : list Point) : Element :=
  let areaGenerator := area (curves (Props.interpolation props)) x0 y0 y1 in
  let areaPath := areaGenerator data in
  let lineGenerator := line (curves (Props.interpolation props)) x0 y1 in
  let outlinePath := lineGenerator data in
  g (Some ("area-" +:+ pretty i))
    [ path areaPath style
        (λ e, handleClick e column)
        (λ _, handleHoverLeave)
        (λ e, handleHover e column);
      path outlinePath pathStyle
        (λ e, handleClick e column)
        (λ _, handleHoverLeave)
        (λ e, handleHover e column) ].

(** [columnList.map((column, i) => ...)], with the [offsets] array the
    callback closes over threaded from one column to the next. *)
Fixpoint mapColumns (dir : number) (columnList : list string) (i : nat)
    (offsets : list number) : M (list Element) :=
  match columnList with
  | [] => mret []
  | column :: columnList =>
      style ← areaStyle column;
      pathStyle ← pathStyle column;
      let '(data, offsets) := stackColumn dir column offsets in
      groups ← mapColumns dir columnList (S i) offsets;
      mret (columnGroup i column style pathStyle data :: groups)
  end.

Definition renderPaths (columnList : list string) (direction : string)
  : M (list Element) :=
  let dir := dirOf direction in
  let size := length (Props.series props) in
  let offsets := replicate size 0 in
  mapColumns dir columnList 0 offsets.

Definition renderAreas : M Element :=
  let up := default [] (up (Props.columns props)) in
  let down := default [] (down (Props.columns props)) in
  ups ← renderPaths up "up";
  downs ← renderPaths down "down";
  mret (g None [children_array ups; children_array downs]).

Definition render : M Element :=
  areas ← renderAreas;
  mret (g None [areas]).

(** *** What the stacking loop has computed when column [k] starts *)

(** The [offsets] array after the columns [earlier] have been mapped,
    from the array [start]. *)
Definition offsetsFrom (dir : number) (start : list number) (earlier : list string)
  : list number :=
  foldl (λ offsets column, (stackColumn dir column offsets).2) start earlier.

(** The same from the zeros [renderPaths] allocates. *)
Definition offsetsAfter (dir : number) (earlier : list string) : list number :=
  offsetsFrom dir (replicate (length (Props.series props)) 0) earlier.

(** The point pushed for row [seriesPoint] when its offset is [v]. *)
Definition pointAt (dir : number) (column : string) (seriesPoint : Event) (v : number)
  : Point :=
  {| x0 := Props.timeScale props (timestamp seriesPoint);
     y0 := deref (Props.yScale props) v;
     y1 := deref (Props.yScale props) (v + dir * get seriesPoint column) |}.

(** The [data] array built for the [k]-th column of [columnList]. *)
Definition columnData (columnList : list string) (direction : string) (k : nat)
  : option (list Point) :=
  column ← columnList !! k;
  Some (stackColumn (dirOf direction) column
          (offsetsAfter (dirOf direction) (take k columnList))).1.

(** The sum, left to right from 0, of [dir] times the values of the
    columns [earlier] in one row. *)
Definition cumulative (dir : number) (seriesPoint : Event) (earlier : list string)
  : number :=
  foldl (λ sum column, sum + dir * get seriesPoint column) 0 earlier.
End Methods.
End AreaChart.
End AreaChart.

(** The two messages [style] can log. *)
Definition outline_message (styleMap : option AreaChartStyle) (column : string) : Effect :=
  console_error "Provided style for AreaChart does not define a style for the outline:"
    [log_styleMap styleMap; log_column column].

Definition area_message (styleMap : option AreaChartStyle) : Effect :=
  console_error "Provided style for AreaChart does not define a style for the area:"
    [log_styleMap styleMap].

(** ** The variant of a column, in the words of the specification *)

Module Spec.
Section Spec.
Context `{Externals}.
Variable props : Props.t.

(** A string prop is set when it holds a non-empty string, the test
    JavaScript makes of it. *)
Definition is_set (prop : option string) : bool := truthy_string prop.

Definition highlighted (column : string) : bool :=
  is_set (Props.highlight props) && bool_decide (Some column = Props.highlight props).

(** "When the selection prop is set, the variant is selected if column
    equals selection, otherwise highlighted if the highlight prop is set
    and column equals highlight, otherwise muted; when the selection prop
    is not set, the variant is highlighted if the highlight prop is set
    and column equals highlight, otherwise normal." *)
Definition variant (column : string) : string :=
  if is_set (Props.selection props) then
    if bool_decide (Some column = Props.selection props) then "selected"
    else if highlighted column then "highlighted"
    else "muted"
  else
    if highlighted column then "highlighted"
    else "normal".

(** "All of the nine tracked props are unchanged": series by size, then
    by [TimeSeries.is]; timeScale via [scaleAsString]; width; interpolation;
    columns and style by JSON serialisation; yScale by reference;
    highlight; selection.  Width is compared as [!==] compares numbers. *)
Definition unchanged (nextProps : Props.t) : Prop :=
  (length (Props.series props) = length (Props.series nextProps)
   ∧ TimeSeries_is (Props.series props) (Props.series nextProps) = true) ∧
  scaleAsString (Props.timeScale props) = scaleAsString (Props.timeScale nextProps) ∧
  PrimFloat.eqb (Props.width props) (Props.width nextProps) = true ∧
  Props.interpolation props = Props.interpolation nextProps ∧
  JSON_stringify_columns (Props.columns props)
    = JSON_stringify_columns (Props.columns nextProps) ∧
  JSON_stringify_style (Props.style props) = JSON_stringify_style (Props.style nextProps) ∧
  address (Props.yScale props) = address (Props.yScale nextProps) ∧
  Props.highlight props = Props.highlight nextProps ∧
  Props.selection props = Props.selection nextProps.
End Spec.
End Spec.

(** ** Baseline *)

Module BaselineProps.
(** [this.props] as [render] sees it.  [yScale] is a function or absent,
    [value] a number or undefined; [style] is an object whose sub-keys
    label and line are optional. *)
Record t := {
  yScale : option (number → number);
  value : option number;
  width : number;
  position : string;
  label : string;
  style : gmap string CSSProperties;
}.
End BaselineProps.

Module Baseline.
Record Polyline := { points : string; polyline_style : CSSProperties }.

Record Text := {
  text_style : CSSProperties;
  x : option number;
  y : number;
  textAnchor : option string;
  text : string;
}.

Record Group := {
  className : string;
  transform : string;
  polyline : Polyline;
  label : Text;
}.

Record DefaultProps := {
  value : number;
  label_text : string;
  position : string;
  style : gmap string CSSProperties;
}.

Section Baseline.
(** Number to string conversion of [+], and lodash's [_.merge] (which
    also stores its result in its first argument; [render] does not read
    that argument again). *)
Variable Number_toString : number → string.
Variable lodash_merge : option CSSProperties → CSSProperties → CSSProperties.
(** [style_1.baselineDefaultStyle], from [./style]. *)
Variable baselineDefaultStyle : gmap string CSSProperties.

Definition defaultProps : DefaultProps :=
  {| value := 0; label_text := ""; position := "left"; style := baselineDefaultStyle |}.

(** [render]; [None] is the [null] it returns.  [textAnchor] and
    [textPositionX] stay undefined unless one of the two tests on
    [position] assigns them. *)
Definition render (props : BaselineProps.t) : option Group :=
  match BaselineProps.yScale props, BaselineProps.value props with
  | Some yScale, Some value =>
      let y := yScale value in
      let transform := "translate(0 " +:+ Number_toString y +:+ ")" in
      let textAnchor : option string := None in
      let textPositionX : option number := None in
      let pts : list string := [] in
      let textPositionY := -3 in
      let '(textAnchor, textPositionX) :=
        if String.eqb (BaselineProps.position props) "left"
        then (Some "start", Some 5)
        else (textAnchor, textPositionX) in
      let '(textAnchor, textPositionX) :=
        if String.eqb (BaselineProps.position props) "right"
        then (Some "end", Some (BaselineProps.width props - 5))
        else (textAnchor, textPositionX) in
      let pts := pts ++ ["0 0"] in
      let pts := pts ++ [Number_toString (BaselineProps.width props) +:+ " 0"] in
      let points := String.concat " " pts in
      let labelStyle :=
        lodash_merge (baselineDefaultStyle !! "label")
          (default ∅ (BaselineProps.style props !! "label")) in
      let lineStyle :=
        lodash_merge (baselineDefaultStyle !! "line")
          (default ∅ (BaselineProps.style props !! "line")) in
      Some {| className := "baseline"; transform := transform;
              polyline := {| points := points; polyline_style := lineStyle |};
              label := {| text_style := labelStyle; x := textPositionX;
                          y := textPositionY; textAnchor := textAnchor;
                          text := BaselineProps.label props |} |}
  | _, _ => None
  end.
End Baseline.
End Baseline.

(** ** The arrays of [renderPaths] in a store

    A second reading of [renderPaths] and [renderAreas] in which every
    JavaScript array is a cell of a heap: the column lists of the
    [columns] prop, the [offsets] array allocated by [new Array(size)],
    and the [data] array of each column.  The series is a pondjs object
    that the component reads only through [size], [at], [timestamp] and
    [get]; it stays a value. *)

Module Store.
Inductive Cell :=
  | numbers (a : list number)
  | strings (a : list string)
  | points (a : list Point).

Abbreviation Heap := (gmap positive Cell) (only parsing).

(** A heap transformer that may log and throw. *)
Definition HM (A : Type) : Type := Heap → Heap * M A.

#[global] Instance HM_ret : MRet HM := λ A a h, (h, mret a).
#[global] Instance HM_bind : MBind HM := λ A B f m h,
  let '(h1, r1) := m h in
  match result r1 with
  | Returned a =>
      let '(h2, r2) := f a h1 in
      (h2, Run (trace r1 ++ trace r2) (result r2))
  | Thrown e => (h1, Run (trace r1) (Thrown e))
  end.

(** A computation that does not touch the heap. *)
Definition lift {A} (m : M A) : HM A := λ h, (h, m).

Definition alloc (c : Cell) : HM positive := λ h,
  let l := fresh (dom h) in (<[l := c]> h, mret l).

Definition numbers_at (h : Heap) (l : positive) : list number :=
  match h !! l with Some (numbers a) => a | _ => [] end.
Definition strings_at (h : Heap) (l : positive) : list string :=
  match h !! l with Some (strings a) => a | _ => [] end.
Definition points_at (h : Heap) (l : positive) : list Point :=
  match h !! l with Some (points a) => a | _ => [] end.

Definition read_numbers (l : positive) : HM (list number) := λ h, (h, mret (numbers_at h l)).
Definition read_strings (l : positive) : HM (list string) := λ h, (h, mret (strings_at h l)).
Definition read_points (l : positive) : HM (list Point) := λ h, (h, mret (points_at h l)).

(** [data.push(pt)] *)
Definition push (l : positive) (pt : Point) : HM unit := λ h,
  (<[l := points (points_at h l ++ [pt])]> h, mret tt).

(** [offsets[j] = v] *)
Definition write (l : positive) (j : nat) (v : number) : HM unit := λ h,
  (<[l := numbers (<[j := v]> (numbers_at h l))]> h, mret tt).

(** Heap [h'] keeps every cell of [h]. *)
Definition keeps (h h' : Heap) : Prop :=
  ∀ l, is_Some (h !! l) → h' !! l = h !! l.

Section Store.
Context `{Externals}.
Variable props : Props.t.

Fixpoint stackLoop (dir : number) (column : string) (rest : list Event) (j : nat)
    (data offsets : positive) : HM unit :=
  match rest with
  | [] => mret tt
  | seriesPoint :: rest =>
      o ← read_numbers offsets;
      push data
        {| x0 := Props.timeScale props (timestamp seriesPoint);
           y0 := deref (Props.yScale props) (AreaChart.offset_at o j);
           y1 := deref (Props.yScale props)
                   (AreaChart.offset_at o j + dir * get seriesPoint column) |};;
      (if truthy_bool (Props.stack props)
       then o ← read_numbers offsets;
            write offsets j (AreaChart.offset_at o j + dir * get seriesPoint column)
       else mret tt);;
      stackLoop dir column rest (S j) data offsets
  end.

(** [columnList.map(callback)]: [n] indices remain, starting at [i];
    each element is read from the array when its turn comes. *)
Fixpoint mapColumns (dir : number) (columnList : positive) (n i : nat)
    (offsets : positive) : HM (list Element) :=
  match n with
  | 0%nat => mret []
  | S n =>
      cols ← read_strings columnList;
      match cols !! i with
      | None => mapColumns dir columnList n (S i) offsets
      | Some column =>
          style ← lift (AreaChart.areaStyle props column);
          pathStyle ← lift (AreaChart.pathStyle props column);
          data ← alloc (points []);
          stackLoop dir column (Props.series props) 0 data offsets;;
          pts ← read_points data;
          groups ← mapColumns dir columnList n (S i) offsets;
          mret (AreaChart.columnGroup props i column style pathStyle pts :: groups)
      end
  end.

Definition renderPaths (columnList : positive) (direction : string)
  : HM (list Element) :=
  let dir := AreaChart.dirOf direction in
  let size := length (Props.series props) in
  offsets ← alloc (numbers (replicate size 0));
  cols ← read_strings columnList;
  mapColumns dir columnList (length cols) 0 offsets.

(** [renderAreas], given where the [up] and [down] arrays of the
    [columns] prop live; an absent one is replaced by a new [[]]. *)
Definition renderAreas (up down : option positive) : HM Element :=
  up ← match up with Some l => mret l | None => alloc (strings []) end;
  down ← match down with Some l => mret l | None => alloc (strings []) end;
  ups ← renderPaths up "up";
  downs ← renderPaths down "down";
  mret (g None [children_array ups; children_array downs]).

Definition render (up down : option positive) : HM Element :=
  areas ← renderAreas up down;
  mret (g None [areas]).

(** Heap [h] holds the optional column list [a] at [l]. *)
Definition holds (h : Heap) (l : option positive) (a : option (list string)) : Prop :=
  match l, a with
  | Some l, Some a => h !! l = Some (strings a)
  | None, None => True
  | _, _ => False
  end.

(** The heap holds the [columns] prop. *)
Definition holds_columns (h : Heap) (up_at down_at : option positive) : Prop :=
  holds h up_at (up (Props.columns props)) ∧
  holds h down_at (down (Props.columns props)).
End Store.
End Store.

(** ** A small instance to run the definitions on *)

Module Sample.
(** Events are a timestamp and a dictionary of fields; a path is the
    list of coordinates the generator was given; [merge] lets the later
    object win key by key. *)
Definition externals : Externals :=
  {| Time := number;
     Event := number * gmap string number;
     timestamp := fst;
     get := λ e column, default nan (e.2 !! column);
     TimeSeries_is := λ a b, bool_decide (length a = length b);
     TimeSeries_is_refl := λ s, bool_decide_eq_true_2 _ eq_refl;
     scaleAsString := λ _, "scale";
     Styler := gmap string AreaChartStyle;
     areaChartStyle := id;
     merge := λ _ a b, default ∅ b ∪ default ∅ a;
     JSON_stringify_columns := λ c,
       Some (String.concat "," (default [] (up c)) +:+ "|" +:+
             String.concat "," (default [] (down c)));
     JSON_stringify_style := λ s, (λ _, "style") <$> s;
     Curve := string;
     Path := list (list number);
     curves := id;
     area := λ _ fx fy0 fy1 data, (λ pt, [fx pt; fy0 pt; fy1 pt]) <$> data;
     line := λ _ fx fy data, (λ pt, [fx pt; fy pt]) <$> data |}.

#[local] Existing Instance externals.

Definition traffic : list Event :=
  [ (0, {[ "in" := 1; "out" := 2 ]});
    (60, {[ "in" := 3; "out" := 5 ]}) ].

(** [<AreaChart series={traffic} columns={{up: ["in", "out"], down: ["out"]}} stack />] *)
Definition props : Props.t :=
  {| Props.series := traffic;
     Props.timeScale := λ t, t * 2;
     Props.yScale := Object 1 (λ v, 100 - v);
     Props.width := 300;
     Props.columns := {| up := Some ["in"; "out"]; down := Some ["out"] |};
     Props.style := None;
     Props.interpolation := "curveLinear";
     Props.stack := Some true;
     Props.highlight := None;
     Props.selection := None;
     Props.onHighlightChange := Some (callback 1);
     Props.onSelectionChange := None |}.

Definition with_stack (stack : option bool) (p : Props.t) : Props.t :=
  {| Props.series := Props.series p; Props.timeScale := Props.timeScale p;
     Props.yScale := Props.yScale p; Props.width := Props.width p;
     Props.columns := Props.columns p; Props.style := Props.style p;
     Props.interpolation := Props.interpolation p; Props.stack := stack;
     Props.highlight := Props.highlight p; Props.selection := Props.selection p;
     Props.onHighlightChange := Props.onHighlightChange p;
     Props.onSelectionChange := Props.onSelectionChange p |}.

Definition with_style (style : option (Styler + gmap string AreaChartStyle))
    (p : Props.t) : Props.t :=
  {| Props.series := Props.series p; Props.timeScale := Props.timeScale p;
     Props.yScale := Props.yScale p; Props.width := Props.width p;
     Props.columns := Props.columns p; Props.style := style;
     Props.interpolation := Props.interpolation p; Props.stack := Props.stack p;
     Props.highlight := Props.highlight p; Props.selection := Props.selection p;
     Props.onHighlightChange := Props.onHighlightChange p;
     Props.onSelectionChange := Props.onSelectionChange p |}.

Definition with_width (width : number) (p : Props.t) : Props.t :=
  {| Props.series := Props.series p; Props.timeScale := Props.timeScale p;
     Props.yScale := Props.yScale p; Props.width := width;
     Props.columns := Props.columns p; Props.style := Props.style p;
     Props.interpolation := Props.interpolation p; Props.stack := Props.stack p;
     Props.highlight := Props.highlight p; Props.selection := Props.selection p;
     Props.onHighlightChange := Props.onHighlightChange p;
     Props.onSelectionChange := Props.onSelectionChange p |}.

(** A style object for the column "in" that omits the line sub-key. *)
Definition area_only : gmap string AreaChartStyle :=
  {[ "in" := {[ "area" := {[ "normal" := {[ "fill" := css_string "red" ]} ]} ]} ]}.

(** The groups of the up direction. *)
Definition up_groups : list Element :=
  match result (AreaChart.renderPaths props ["in"; "out"] "up") with
  | Returned groups => groups
  | Thrown _ => []
  end.

(** [defaultStyle.area] *)
Definition default_area : VariantStyles := default ∅ (defaultStyle !! "area").

(** A heap that holds the two column lists of [props]. *)
Definition heap : gmap positive Store.Cell :=
  {[ 1%positive := Store.strings ["in"; "out"]; 2%positive := Store.strings ["out"] ]}.

Definition Number_toString (n : number) : string := "#".

Definition lodash_merge (a : option CSSProperties) (b : CSSProperties) : CSSProperties :=
  b ∪ default ∅ a.

Definition baseline : BaselineProps.t :=
  {| BaselineProps.yScale := Some (λ v, 100 - v);
     BaselineProps.value := Some 40;
     BaselineProps.width := 300;
     BaselineProps.position := "right";
     BaselineProps.label := "avg";
     BaselineProps.style := ∅ |}.
End Sample.

(** ** Props with some fields replaced *)

Module Update.
Section Update.
Context `{Externals}.

Definition selection (selection : option string) (p : Props.t) : Props.t :=
  {| Props.series := Props.series p; Props.timeScale := Props.timeScale p;
     Props.yScale := Props.yScale p; Props.width := Props.width p;
     Props.columns := Props.columns p; Props.style := Props.style p;
     Props.interpolation := Props.interpolation p; Props.stack := Props.stack p;
     Props.highlight := Props.highlight p; Props.selection := selection;
     Props.onHighlightChange := Props.onHighlightChange p;
     Props.onSelectionChange := Props.onSelectionChange p |}.

Definition highlight (highlight : option string) (p : Props.t) : Props.t :=
  {| Props.series := Props.series p; Props.timeScale := Props.timeScale p;
     Props.yScale := Props.yScale p; Props.width := Props.width p;
     Props.columns := Props.columns p; Props.style := Props.style p;
     Props.interpolation := Props.interpolation p; Props.stack := Props.stack p;
     Props.highlight := highlight; Props.selection := Props.selection p;
     Props.onHighlightChange := Props.onHighlightChange p;
     Props.onSelectionChange := Props.onSelectionChange p |}.

Definition style (style : option (Styler + gmap string AreaChartStyle)) (p : Props.t)
  : Props.t :=
  {| Props.series := Props.series p; Props.timeScale := Props.timeScale p;
     Props.yScale := Props.yScale p; Props.width := Props.width p;
     Props.columns := Props.columns p; Props.style := style;
     Props.interpolation := Props.interpolation p; Props.stack := Props.stack p;
     Props.highlight := Props.highlight p; Props.selection := Props.selection p;
     Props.onHighlightChange := Props.onHighlightChange p;
     Props.onSelectionChange := Props.onSelectionChange p |}.
End Update.
End Update.

(** ** Columns whose style can be resolved *)

Section Styled.
Context `{Externals}.
Variable props : Props.t.

(** The style map of the column has both sub-keys. *)
Definition styled (column : string) : bool :=
  has (AreaChart.providedAreaStyleMap props column) "line"
  && has (AreaChart.providedAreaStyleMap props column) "area".


End Styled.

(** ** Baseline and the shared default style

    lodash's [_.merge(object, source)] writes the merged properties into
    [object] and returns it; [render] passes it the sub-objects of the
    module-level [baselineDefaultStyle].  This reading of [render] threads
    the content of that shared object: it returns the element and the
    default style as the call leaves it. *)

Module BaselineStore.
Section BaselineStore.
Variable Number_toString : number → string.
Variable lodash_merge : option CSSProperties → CSSProperties → CSSProperties.

(** [_.merge(defaults[key], source)]: the merged style, and [defaults]
    with the sub-object under [key] holding it when there is one (an
    undefined first argument is replaced by a new object). *)
Definition merge_into (defaults : gmap string CSSProperties) (key : string)
    (source : CSSProperties) : CSSProperties * gmap string CSSProperties :=
  let merged := lodash_merge (defaults !! key) source in
  (merged,
   match defaults !! key with
   | Some _ => <[key := merged]> defaults
   | None => defaults
   end).

Definition render (baselineDefaultStyle : gmap string CSSProperties)
    (props : BaselineProps.t) : option Baseline.Group * gmap string CSSProperties :=
  match BaselineProps.yScale props, BaselineProps.value props with
  | Some yScale, Some value =>
      let y := yScale value in
      let transform := "translate(0 " +:+ Number_toString y +:+ ")" in
      let textAnchor : option string := None in
      let textPositionX : option number := None in
      let pts : list string := [] in
      let textPositionY := -3 in
      let '(textAnchor, textPositionX) :=
        if String.eqb (BaselineProps.position props) "left"
        then (Some "start", Some 5)
        else (textAnchor, textPositionX) in
      let '(textAnchor, textPositionX) :=
        if String.eqb (BaselineProps.position props) "right"
        then (Some "end", Some (BaselineProps.width props - 5))
        else (textAnchor, textPositionX) in
      let pts := pts ++ ["0 0"] in
      let pts := pts ++ [Number_toString (BaselineProps.width props) +:+ " 0"] in
      let points := String.concat " " pts in
      let '(labelStyle, baselineDefaultStyle) :=
        merge_into baselineDefaultStyle "label"
          (default ∅ (BaselineProps.style props !! "label")) in
      let '(lineStyle, baselineDefaultStyle) :=
        merge_into baselineDefaultStyle "line"
          (default ∅ (BaselineProps.style props !! "line")) in
      (Some {| Baseline.className := "baseline"; Baseline.transform := transform;
               Baseline.polyline :=
                 {| Baseline.points := points; Baseline.polyline_style := lineStyle |};
               Baseline.label :=
                 {| Baseline.text_style := labelStyle; Baseline.x := textPositionX;
                    Baseline.y := textPositionY; Baseline.textAnchor := textAnchor;
                    Baseline.text := BaselineProps.label props |} |},
       baselineDefaultStyle)
  | _, _ => (None, baselineDefaultStyle)
  end.
End BaselineStore.
End BaselineStore.

(** ** Further inputs to run the definitions on *)

Module Cases.
#[local] Existing Instance Sample.externals.

(** The column "in" is selected while "out" is hovered. *)
Definition selected : Props.t :=
  Update.selection (Some "in") (Update.highlight (Some "out") Sample.props).


(** No column has a style. *)
Definition no_columns_styled : Props.t := Update.style (Some (inr ∅)) Sample.props.

(** The groups of the up direction when "in" is its only column. *)
Definition in_groups : list Element :=
  match result (AreaChart.renderPaths Sample.props ["in"] "up") with
  | Returned groups => groups
  | Thrown _ => []
  end.



Definition centered : BaselineProps.t :=
  {| BaselineProps.yScale := Some (λ v, 100 - v);
     BaselineProps.value := Some 40;
     BaselineProps.width := 300;
     BaselineProps.position := "center";
     BaselineProps.label := "avg";
     BaselineProps.style := {[ "label" := {[ "fill" := css_string "red" ]} ]} |}.
End Cases.

(** * Properties *)

(** ** The monad *)

Section Monad.
Context {A B : Type}.

Lemma bind_unfold (m : M A) (f : A → M B) :
  m ≫= f =
  match result m with
  | Returned a => Run (trace m ++ trace (f a)) (result (f a))
  | Thrown e => Run (trace m) (Thrown e)
  end.
Proof. reflexivity. Qed.

Lemma bind_returned (m : M A) (f : A → M B) t b :
  m ≫= f = Run t (Returned b) →
  ∃ a t1 t2, m = Run t1 (Returned a) ∧ f a = Run t2 (Returned b) ∧ t = t1 ++ t2.
Proof.
  rewrite bind_unfold. destruct m as [t1 [a|e]]; simpl; [|discriminate].
  destruct (f a) as [t2 r2] eqn:Hf; simpl. intros [= <- ->].
  by exists a, t1, t2.
Qed.


Lemma bind_run_thrown t1 e (f : A → M B) :
  Run t1 (Thrown e) ≫= f = Run t1 (Thrown e).
Proof. reflexivity. Qed.
End Monad.

Lemma mret_returned {A} (a b : A) t : mret a = Run t (Returned b) → t = [] ∧ a = b.
Proof. by intros [= <- <-]. Qed.

(** ** The stacking loop *)

Section Stacking.
Context `{Externals}.
Variable props : Props.t.

Implicit Types (dir : number) (column : string) (rest : list Event)
  (data : list Point) (offsets : list number).

Lemma stackLoop_length dir column rest j data offsets :
  length (AreaChart.stackLoop props dir column rest j data offsets).2 = length offsets.
Proof.
  revert j data offsets. induction rest as [|sp rest IH]; intros j data offsets; [done|].
  simpl. rewrite IH. destruct (truthy_bool _); [apply length_insert|done].
Qed.

(** The loop started at row [j] leaves the offsets of earlier rows alone. *)
Lemma stackLoop_offsets_before dir column rest j data offsets m :
  (m < j)%nat →
  (AreaChart.stackLoop props dir column rest j data offsets).2 !! m = offsets !! m.
Proof.
  revert j data offsets. induction rest as [|sp rest IH]; intros j data offsets Hm; [done|].
  simpl. rewrite IH by lia. destruct (truthy_bool _); [|done].
  apply list_lookup_insert_ne. lia.
Qed.

(** It only appends to [data], one point per row. *)
Lemma stackLoop_data_app dir column rest j data offsets :
  ∃ more, (AreaChart.stackLoop props dir column rest j data offsets).1 = data ++ more
          ∧ length more = length rest.
Proof.
  revert j data offsets. induction rest as [|sp rest IH]; intros j data offsets.
  - exists []. by rewrite app_nil_r.
  - simpl. edestruct IH as (more & -> & Hlen).
    eexists (_ :: more). rewrite <- app_assoc. split; [done|]. simpl. by rewrite Hlen.
Qed.

Lemma stackLoop_row dir column rest j data offsets i seriesPoint v :
  rest !! i = Some seriesPoint →
  offsets !! (j + i)%nat = Some v →
  let r := AreaChart.stackLoop props dir column rest j data offsets in
  r.1 !! (length data + i)%nat = Some (AreaChart.pointAt props dir column seriesPoint v) ∧
  r.2 !! (j + i)%nat =
    Some (if truthy_bool (Props.stack props) then v + dir * get seriesPoint column else v).
Proof.
  revert j data offsets i.
  induction rest as [|sp rest IH]; intros j data offsets i Hi Hv; [done|].
  destruct i as [|i]; simpl in Hi.
  - injection Hi as ->. rewrite Nat.add_0_r in *. simpl.
    assert (AreaChart.offset_at offsets j = v) as Hread
      by (unfold AreaChart.offset_at; by rewrite Hv).
    rewrite Hread. split.
    + edestruct stackLoop_data_app as (more & -> & _).
      rewrite <- app_assoc. rewrite lookup_app_r by lia.
      by rewrite Nat.sub_diag.
    + rewrite stackLoop_offsets_before by lia. rewrite Nat.add_0_r.
      destruct (truthy_bool _); [|done].
      apply list_lookup_insert_eq. by eapply lookup_lt_Some.
  - simpl.
    set (data' := data ++ [_]).
    set (offsets' := if truthy_bool _ then _ else _).
    destruct (IH (S j) data' offsets' i Hi) as [Hdata Hoffsets].
    { replace (S j + i)%nat with (j + S i)%nat by lia. subst offsets'.
      destruct (truthy_bool _); [|done].
      rewrite list_lookup_insert_ne by lia. done. }
    split.
    + rewrite <- Hdata. f_equal. subst data'. rewrite length_app. simpl. lia.
    + rewrite <- Hoffsets. f_equal. lia.
Qed.

Lemma stackColumn_length dir column offsets :
  length (AreaChart.stackColumn props dir column offsets).2 = length offsets.
Proof. apply stackLoop_length. Qed.

Lemma stackColumn_data_length dir column offsets :
  length (AreaChart.stackColumn props dir column offsets).1 = length (Props.series props).
Proof.
  unfold AreaChart.stackColumn.
  edestruct stackLoop_data_app as (more & -> & Hlen). simpl. by rewrite <- Hlen.
Qed.

Lemma stackColumn_row dir column offsets j seriesPoint v :
  Props.series props !! j = Some seriesPoint →
  offsets !! j = Some v →
  (AreaChart.stackColumn props dir column offsets).1 !! j
    = Some (AreaChart.pointAt props dir column seriesPoint v) ∧
  (AreaChart.stackColumn props dir column offsets).2 !! j
    = Some (if truthy_bool (Props.stack props) then v + dir * get seriesPoint column else v).
Proof.
  intros Hj Hv. unfold AreaChart.stackColumn.
  by apply (stackLoop_row dir column (Props.series props) 0 [] offsets j seriesPoint v).
Qed.

(** Without stacking the loop never writes. *)
Lemma stackLoop_unstacked dir column rest j data offsets :
  truthy_bool (Props.stack props) = false →
  (AreaChart.stackLoop props dir column rest j data offsets).2 = offsets.
Proof.
  intros Hs. revert j data offsets.
  induction rest as [|sp rest IH]; intros j data offsets; [done|].
  simpl. rewrite Hs. apply IH.
Qed.

Lemma offsetsFrom_length dir start earlier :
  length (AreaChart.offsetsFrom props dir start earlier) = length start.
Proof.
  unfold AreaChart.offsetsFrom. revert start.
  induction earlier as [|c earlier IH]; intros start; [done|].
  simpl. rewrite IH. apply stackColumn_length.
Qed.

Lemma offsetsFrom_row dir start earlier j seriesPoint v :
  truthy_bool (Props.stack props) = true →
  Props.series props !! j = Some seriesPoint →
  start !! j = Some v →
  AreaChart.offsetsFrom props dir start earlier !! j
    = Some (foldl (λ sum column, sum + dir * get seriesPoint column) v earlier).
Proof.
  intros Hs Hj. unfold AreaChart.offsetsFrom. revert start v.
  induction earlier as [|c earlier IH]; intros start v Hv; [done|].
  simpl. apply IH.
  destruct (stackColumn_row dir c start j seriesPoint v Hj Hv) as [_ ->].
  by rewrite Hs.
Qed.

Lemma offsetsFrom_unstacked dir start earlier :
  truthy_bool (Props.stack props) = false →
  AreaChart.offsetsFrom props dir start earlier = start.
Proof.
  intros Hs. unfold AreaChart.offsetsFrom. revert start.
  induction earlier as [|c earlier IH]; intros start; [done|].
  simpl. rewrite IH. by apply stackLoop_unstacked.
Qed.

Lemma offsetsAfter_from dir earlier :
  AreaChart.offsetsAfter props dir earlier
  = AreaChart.offsetsFrom props dir (replicate (length (Props.series props)) 0) earlier.
Proof. reflexivity. Qed.
End Stacking.

(** ** Style resolution *)

Lemma defaultVariant_defined type variant :
  type = "line" ∨ type = "area" →
  variant = "normal" ∨ variant = "highlighted" ∨ variant = "selected" ∨ variant = "muted" →
  is_Some (defaultVariant type variant).
Proof.
  intros [-> | ->] [-> | [-> | [-> | ->]]]; eexists; reflexivity.
Qed.

Lemma bind_mret {A B} (a : A) (f : A → M B) : mret a ≫= f = f a.
Proof. rewrite bind_unfold. simpl. by destruct (f a). Qed.

Lemma member_some {A} (m : gmap string A) key : member (Some m) key = mret (m !! key).
Proof. reflexivity. Qed.

Lemma bind_throw {A B} e (f : A → M B) : throw e ≫= f = throw e.
Proof. reflexivity. Qed.

Section Style.
Context `{Externals}.
Variable props : Props.t.

Lemma spec_variant_cases column :
  let v := Spec.variant props column in
  v = "normal" ∨ v = "highlighted" ∨ v = "selected" ∨ v = "muted".
Proof.
  unfold Spec.variant. repeat case_match; auto.
Qed.

(** What [mergeVariant] does once the default variant is known. *)
Lemma mergeVariant_cases styleMap type variant :
  type = "line" ∨ type = "area" →
  variant = "normal" ∨ variant = "highlighted" ∨ variant = "selected" ∨ variant = "muted" →
  ∃ dv, defaultVariant type variant = Some dv ∧
    AreaChart.mergeVariant styleMap type variant =
    match styleMap with
    | None => throw (TypeError type)
    | Some m =>
        match m !! type with
        | None => throw (TypeError variant)
        | Some vs => mret (merge true (Some dv) (Some (default ∅ (vs !! variant))))
        end
    end.
Proof.
  intros Ht Hv.
  destruct (defaultVariant_defined type variant Ht Hv) as [dv Hdv].
  exists dv. split; [done|].
  unfold defaultVariant in Hdv.
  destruct (defaultStyle !! type) as [dt|] eqn:Hdt; [|done].
  unfold AreaChart.mergeVariant.
  rewrite member_some, bind_mret, Hdt, member_some, bind_mret, Hdv.
  destruct styleMap as [m|]; [|done].
  rewrite member_some, bind_mret.
  destruct (m !! type) as [vs|]; [|done].
  rewrite member_some, bind_mret. by destruct (vs !! variant).
Qed.

(** The variant the code picks is the one the specification names. *)
Lemma style_unfold column type :
  AreaChart.style props column type =
  let styleMap := AreaChart.providedAreaStyleMap props column in
  when (negb (has styleMap "line"))
    (emit (console_error
             "Provided style for AreaChart does not define a style for the outline:"
             [log_styleMap styleMap; log_column column]));;
  when (negb (has styleMap "area"))
    (emit (console_error
             "Provided style for AreaChart does not define a style for the area:"
             [log_styleMap styleMap]));;
  AreaChart.mergeVariant styleMap type (Spec.variant props column).
Proof.
  unfold AreaChart.style, Spec.variant, Spec.highlighted, Spec.is_set.
  destruct (truthy_string (Props.selection props));
    destruct (bool_decide (Some column = Props.selection props));
    destruct (truthy_string (Props.highlight props)
              && bool_decide (Some column = Props.highlight props));
    reflexivity.
Qed.
End Style.

Section StyleOutcome.
Context `{Externals}.
Variable props : Props.t.

(** [style] logs first and merges afterwards: its trace is the messages,
    its result the result of the merge. *)
Lemma style_run column type :
  type = "line" ∨ type = "area" →
  let styleMap := AreaChart.providedAreaStyleMap props column in
  trace (AreaChart.style props column type) =
    (if has styleMap "line" then [] else [outline_message styleMap column]) ++
    (if has styleMap "area" then [] else [area_message styleMap])
  ∧ result (AreaChart.style props column type) =
    result (AreaChart.mergeVariant styleMap type (Spec.variant props column)).
Proof.
  intros Ht. cbv zeta. rewrite style_unfold. cbv zeta.
  destruct (mergeVariant_cases (AreaChart.providedAreaStyleMap props column) type
              (Spec.variant props column) Ht
              (spec_variant_cases props column)) as (dv & _ & ->).
  generalize (AreaChart.providedAreaStyleMap props column). intros styleMap.
  destruct (has styleMap "line"), (has styleMap "area");
    destruct styleMap as [m|]; try destruct (m !! type); split; reflexivity.
Qed.

Lemma has_true {A} (obj : option (gmap string A)) key :
  has obj key = true ↔ ∃ m v, obj = Some m ∧ m !! key = Some v.
Proof.
  unfold has. destruct obj as [m|].
  - rewrite bool_decide_eq_true. split.
    + intros [v Hv]. by exists m, v.
    + intros (? & v & [= <-] & Hv). by exists v.
  - split; [done|]. by intros (? & ? & ? & ?).
Qed.

(** [style] returns exactly when the style map has the sub-key asked for. *)
Lemma style_returns_iff column type :
  type = "line" ∨ type = "area" →
  (∃ css, result (AreaChart.style props column type) = Returned css)
  ↔ has (AreaChart.providedAreaStyleMap props column) type = true.
Proof.
  intros Ht. destruct (style_run column type Ht) as [_ ->].
  destruct (mergeVariant_cases (AreaChart.providedAreaStyleMap props column) type
              (Spec.variant props column) Ht
              (spec_variant_cases props column)) as (dv & _ & ->).
  rewrite has_true.
  destruct (AreaChart.providedAreaStyleMap props column) as [m|]; simpl.
  - destruct (m !! type) as [vs|] eqn:Hm; simpl.
    + split; [intros _; by exists m, vs | intros _; eauto].
    + split; [by intros [? ?] | intros (? & ? & [= <-] & ?); congruence].
  - split; [by intros [? ?] | by intros (? & ? & ? & ?)].
Qed.
End StyleOutcome.

(** ** Claims on style resolution *)

(** C2, as stated, fails: with a style object that has no entry for the
    column, [style] logs twice and throws instead of returning a merge. *)
Lemma style_throws_without_column_entry :
  let p := Sample.with_style (Some (inr ∅)) Sample.props in
  AreaChart.providedAreaStyleMap p "in" = None ∧
  AreaChart.style p "in" "area" =
    Run [outline_message None "in"; area_message None] (Thrown (TypeError "area")) ∧
  ¬ ∃ css, result (AreaChart.style p "in" "area") = Returned css.
Proof.
  split; [reflexivity|]. split; [reflexivity|]. by intros [css ?].
Qed.

(** C2 (amended): for every column and each type "line" or "area",
    [style] resolves exactly one of the four variants, the one the
    specification describes (a prop being set when it holds a non-empty
    string).  When the style map resolved for the column has an entry for
    the type, [style] returns the result of the external call
    [merge(true, D, S)], [D] the built-in default of that variant and [S]
    the caller's variant or the empty object when the caller's is absent.
    When the resolved style map is undefined [style] throws a TypeError on
    reading the type, and when the map lacks the entry for the type, a
    TypeError on reading the variant. *)
Theorem style_merges_resolved_variant `{Externals} (props : Props.t)
    (column type : string) :
  type = "line" ∨ type = "area" →
  let variant := Spec.variant props column in
  (variant = "normal" ∨ variant = "highlighted" ∨ variant = "selected" ∨ variant = "muted") ∧
  ∃ builtin, defaultVariant type variant = Some builtin ∧
    match AreaChart.providedAreaStyleMap props column with
    | None => result (AreaChart.style props column type) = Thrown (TypeError type)
    | Some styleMap =>
        match styleMap !! type with
        | None => result (AreaChart.style props column type) = Thrown (TypeError variant)
        | Some provided =>
            result (AreaChart.style props column type) =
              Returned (merge true (Some builtin)
                          (Some (match provided !! variant with
                                 | Some v => v
                                 | None => ∅
                                 end)))
        end
    end.
Proof.
  intros Ht. cbv zeta.
  split; [apply spec_variant_cases|].
  destruct (style_run props column type Ht) as [_ ->].
  destruct (mergeVariant_cases (AreaChart.providedAreaStyleMap props column) type
              (Spec.variant props column) Ht
              (spec_variant_cases props column)) as (builtin & Hbuiltin & ->).
  exists builtin. split; [done|].
  destruct (AreaChart.providedAreaStyleMap props column) as [styleMap|]; [|done].
  destruct (styleMap !! type) as [provided|]; [|done].
  by destruct (provided !! Spec.variant props column).
Qed.

Lemma style_merges_resolved_variant_witness :
  ∃ builtin, defaultVariant "area" "normal" = Some builtin ∧
    result (AreaChart.style Sample.props "in" "area") =
      Returned (merge (Externals := Sample.externals) true (Some builtin)
                  (Some (match Sample.default_area !! "normal" with
                         | Some v => v
                         | None => ∅
                         end))).
Proof.
  destruct (style_merges_resolved_variant Sample.props "in" "area" (or_intror eq_refl))
    as [_ (builtin & Hbuiltin & Hresult)].
  exists builtin. split; [exact Hbuiltin|exact Hresult].
Defined.

(** C3, as stated, fails: a style for the column that omits the line
    sub-key makes [style(column, "line")] log and then throw. *)
Lemma style_throws_after_logging :
  let p := Sample.with_style (Some (inr Sample.area_only)) Sample.props in
  AreaChart.style p "in" "line" =
    Run [outline_message (Sample.area_only !! "in") "in"] (Thrown (TypeError "normal")) ∧
  ¬ ∃ css, result (AreaChart.style p "in" "line") = Returned css.
Proof.
  split; [reflexivity|]. by intros [css ?].
Qed.

(** C3 (amended): for every column and each type "line" or "area",
    [style] emits a console message exactly when the style map resolved
    for the column lacks the line key or lacks the area key, and emits
    nothing else; it returns a merged style exactly when that map has the
    key of the requested type, and otherwise throws a TypeError after the
    messages. *)
Theorem style_logs_then_merges_or_throws `{Externals} (props : Props.t)
    (column type : string) :
  type = "line" ∨ type = "area" →
  let styleMap := AreaChart.providedAreaStyleMap props column in
  let run := AreaChart.style props column type in
  ((∃ e, e ∈ trace run ∧ is_console_error e = true)
     ↔ has styleMap "line" = false ∨ has styleMap "area" = false) ∧
  (∀ e, e ∈ trace run → is_console_error e = true) ∧
  ((∃ css, result run = Returned css) ↔ has styleMap type = true) ∧
  ((∃ key, result run = Thrown (TypeError key)) ↔ has styleMap type = false).
Proof.
  intros Ht. cbv zeta.
  pose proof (style_returns_iff props column type Ht) as Hret.
  destruct (style_run props column type Ht) as [Htrace Hresult].
  rewrite Htrace. repeat split.
  - intros (e & He & _).
    destruct (has _ "line"); [|by left]. destruct (has _ "area"); [|by right].
    by apply elem_of_nil in He.
  - intros Hlack. destruct (has _ "line") eqn:Hl.
    + destruct Hlack as [|Ha]; [done|]. rewrite Ha.
      eexists. split; [apply list_elem_of_here|done].
    + eexists. split; [apply list_elem_of_here|done].
  - intros e He. destruct (has _ "line"), (has _ "area"); simpl in He;
      repeat (apply elem_of_cons in He as [->|He]; [done|]);
      by apply elem_of_nil in He.
  - apply Hret.
  - apply Hret.
  - intros [key Hkey]. apply not_true_is_false. intros Hhas.
    apply Hret in Hhas as [css Hcss]. congruence.
  - intros Hhas. destruct (result (AreaChart.style props column type)) as [css|[key]] eqn:Hr.
    + assert (has (AreaChart.providedAreaStyleMap props column) type = true) as Htrue
        by (apply Hret; eauto).
      congruence.
    + by exists key.
Qed.

Lemma style_logs_then_merges_or_throws_witness :
  let styleMap := AreaChart.providedAreaStyleMap Sample.props "out" in
  let run := AreaChart.style Sample.props "out" "line" in
  ((∃ e, e ∈ trace run ∧ is_console_error e = true)
     ↔ has styleMap "line" = false ∨ has styleMap "area" = false) ∧
  (∀ e, e ∈ trace run → is_console_error e = true) ∧
  ((∃ css, result run = Returned css) ↔ has styleMap "line" = true) ∧
  ((∃ key, result run = Thrown (TypeError key)) ↔ has styleMap "line" = false).
Proof.
  apply (style_logs_then_merges_or_throws Sample.props "out" "line").
  left; reflexivity.
Defined.

(** C9: when the style prop is absent, [providedAreaStyleMap] is the
    built-in [defaultStyle] for every column; [defaultStyle] has the line
    and area sub-keys with all four variants; so [style] logs nothing and
    returns a merged style (the default variant merged with itself). *)
Theorem style_without_style_prop `{Externals} (props : Props.t) (column type : string) :
  Props.style props = None →
  type = "line" ∨ type = "area" →
  AreaChart.providedAreaStyleMap props column = Some defaultStyle ∧
  (∀ t v, t = "line" ∨ t = "area" →
          v = "normal" ∨ v = "highlighted" ∨ v = "selected" ∨ v = "muted" →
          is_Some (defaultVariant t v)) ∧
  trace (AreaChart.style props column type) = [] ∧
  ∃ builtin, defaultVariant type (Spec.variant props column) = Some builtin ∧
    result (AreaChart.style props column type)
      = Returned (merge true (Some builtin) (Some builtin)).
Proof.
  intros Hstyle Ht.
  assert (AreaChart.providedAreaStyleMap props column = Some defaultStyle) as Hmap
    by (unfold AreaChart.providedAreaStyleMap; by rewrite Hstyle).
  split; [done|]. split; [apply defaultVariant_defined|].
  destruct (style_run props column type Ht) as [-> ->]. rewrite Hmap.
  destruct (mergeVariant_cases (Some defaultStyle) type (Spec.variant props column) Ht
              (spec_variant_cases props column)) as (builtin & Hbuiltin & ->).
  split.
  - assert (has (Some defaultStyle) "line" = true) as -> by reflexivity.
    assert (has (Some defaultStyle) "area" = true) as -> by reflexivity.
    done.
  - exists builtin. split; [done|].
    unfold defaultVariant in Hbuiltin.
    destruct (defaultStyle !! type) as [dt|]; [|done].
    by rewrite Hbuiltin.
Qed.

Lemma style_without_style_prop_witness :
  AreaChart.providedAreaStyleMap Sample.props "in" = Some defaultStyle ∧
  (∀ t v, t = "line" ∨ t = "area" →
          v = "normal" ∨ v = "highlighted" ∨ v = "selected" ∨ v = "muted" →
          is_Some (defaultVariant t v)) ∧
  trace (AreaChart.style Sample.props "in" "line") = [] ∧
  ∃ builtin, defaultVariant "line" (Spec.variant Sample.props "in") = Some builtin ∧
    result (AreaChart.style Sample.props "in" "line")
      = Returned (merge (Externals := Sample.externals) true (Some builtin) (Some builtin)).
Proof.
  apply (style_without_style_prop Sample.props "in" "line").
  - reflexivity.
  - left; reflexivity.
Defined.

(** ** What [renderPaths] returns *)

Section RenderPaths.
Context `{Externals}.
Variable props : Props.t.

(** When the map over the columns returns, there is one group per
    column, built from the two styles of the column and from the data the
    stacking loop produced with the offsets left by the columns before. *)
Lemma mapColumns_returned dir columnList i offsets t groups :
  AreaChart.mapColumns props dir columnList i offsets = Run t (Returned groups) →
  length groups = length columnList ∧
  ∀ k column, columnList !! k = Some column →
    ∃ style pathStyle ts tp,
      AreaChart.areaStyle props column = Run ts (Returned style) ∧
      AreaChart.pathStyle props column = Run tp (Returned pathStyle) ∧
      groups !! k =
        Some (AreaChart.columnGroup props (i + k) column style pathStyle
                (AreaChart.stackColumn props dir column
                   (AreaChart.offsetsFrom props dir offsets (take k columnList))).1).
Proof.
  revert i offsets t groups.
  induction columnList as [|c columnList IH]; intros i offsets t groups Hrun.
  - apply mret_returned in Hrun as [_ <-]. split; [done|]. by intros k column.
  - simpl in Hrun.
    apply bind_returned in Hrun as (style & ts & t1 & Hstyle & Hrun & _).
    apply bind_returned in Hrun as (pathStyle & tp & t2 & HpathStyle & Hrun & _).
    destruct (AreaChart.stackColumn props dir c offsets) as [data offsets'] eqn:Hstack.
    apply bind_returned in Hrun as (rest & t3 & t4 & Hrest & Hrun & _).
    apply mret_returned in Hrun as [_ <-].
    apply IH in Hrest as [Hlen Hgroups].
    split; [simpl; by rewrite Hlen|].
    intros [|k] column Hk; simpl in Hk.
    + injection Hk as <-. exists style, pathStyle, ts, tp.
      rewrite Nat.add_0_r. simpl. unfold AreaChart.offsetsFrom. simpl.
      by rewrite Hstack.
    + destruct (Hgroups k column Hk) as (st & pst & ts' & tp' & Hst & Hpst & Hg).
      exists st, pst, ts', tp'. split; [done|]. split; [done|].
      simpl. rewrite Hg. replace (S i + k)%nat with (i + S k)%nat by lia.
      unfold AreaChart.offsetsFrom. simpl. by rewrite Hstack.
Qed.

Lemma renderPaths_returned columnList direction t groups k column :
  AreaChart.renderPaths props columnList direction = Run t (Returned groups) →
  columnList !! k = Some column →
  ∃ style pathStyle ts tp data,
    AreaChart.areaStyle props column = Run ts (Returned style) ∧
    AreaChart.pathStyle props column = Run tp (Returned pathStyle) ∧
    AreaChart.columnData props columnList direction k = Some data ∧
    groups !! k = Some (AreaChart.columnGroup props k column style pathStyle data).
Proof.
  intros Hrun Hk. unfold AreaChart.renderPaths in Hrun.
  apply mapColumns_returned in Hrun as [_ Hgroups].
  destruct (Hgroups k column Hk) as (style & pathStyle & ts & tp & Hs & Hp & Hg).
  exists style, pathStyle, ts, tp. eexists. split; [done|]. split; [done|].
  split; [|exact Hg].
  unfold AreaChart.columnData. rewrite Hk. reflexivity.
Qed.

Lemma renderPaths_length columnList direction t groups :
  AreaChart.renderPaths props columnList direction = Run t (Returned groups) →
  length groups = length columnList.
Proof. intros Hrun. by apply mapColumns_returned in Hrun as [? _]. Qed.

Lemma dirOf_up_down : AreaChart.dirOf "up" = 1 ∧ AreaChart.dirOf "down" = -1.
Proof. split; reflexivity. Qed.

Lemma replicate_zero_lookup (n j : nat) : (j < n)%nat → replicate n 0 !! j = Some 0.
Proof. intros Hj. by apply lookup_replicate_2. Qed.
End RenderPaths.

(** ** Claims on stacking *)

(** C1: with the stack prop true, the data point of the [k]-th column of a
    direction at row [j] has [y0 = yScale(S)] and
    [y1 = yScale(S + dir * v)]: [dir] is 1 for "up" and -1 for "down", [v]
    the column's value in the row, and [S] the sum, from 0 and left to
    right, of [dir] times the values in that row of the columns 0..k-1 of
    the same list.  The sum starts from 0 for whichever list and direction
    [renderPaths] is called with, so the two stacks do not mix.  The data
    is what the [k]-th group returned by [renderPaths] is drawn from. *)
Theorem renderPaths_stacked_bands `{Externals} (props : Props.t)
    (columnList : list string) (direction : string) (k j : nat)
    (column : string) (seriesPoint : Event) :
  truthy_bool (Props.stack props) = true →
  columnList !! k = Some column →
  Props.series props !! j = Some seriesPoint →
  let dir := AreaChart.dirOf direction in
  let S := AreaChart.cumulative dir seriesPoint (take k columnList) in
  (AreaChart.dirOf "up" = 1 ∧ AreaChart.dirOf "down" = -1) ∧
  (∃ data,
     AreaChart.columnData props columnList direction k = Some data ∧
     data !! j = Some {| x0 := Props.timeScale props (timestamp seriesPoint);
                         y0 := deref (Props.yScale props) S;
                         y1 := deref (Props.yScale props)
                                 (S + dir * get seriesPoint column) |} ∧
     ∀ t groups,
       AreaChart.renderPaths props columnList direction = Run t (Returned groups) →
       ∃ style pathStyle,
         groups !! k = Some (AreaChart.columnGroup props k column style pathStyle data)).
Proof.
  intros Hstack Hk Hj. cbv zeta. split; [apply dirOf_up_down|].
  unfold AreaChart.columnData. rewrite Hk. simpl. eexists. split; [reflexivity|].
  assert (AreaChart.offsetsAfter props (AreaChart.dirOf direction) (take k columnList) !! j
          = Some (AreaChart.cumulative (AreaChart.dirOf direction) seriesPoint
                    (take k columnList))) as Hoffset.
  { unfold AreaChart.offsetsAfter, AreaChart.cumulative.
    apply offsetsFrom_row; [done..|].
    apply replicate_zero_lookup. by eapply lookup_lt_Some. }
  split.
  - by destruct (stackColumn_row props (AreaChart.dirOf direction) column _ j seriesPoint _
                   Hj Hoffset) as [-> _].
  - intros t groups Hrun.
    destruct (renderPaths_returned props columnList direction t groups k column Hrun Hk)
      as (style & pathStyle & _ & _ & data & _ & _ & Hdata & Hg).
    exists style, pathStyle. rewrite Hg.
    unfold AreaChart.columnData in Hdata. rewrite Hk in Hdata. simpl in Hdata.
    by injection Hdata as <-.
Qed.

Lemma renderPaths_stacked_bands_witness :
  (AreaChart.dirOf "up" = 1 ∧ AreaChart.dirOf "down" = -1) ∧
  (∃ data,
     AreaChart.columnData Sample.props ["in"; "out"] "up" 1 = Some data ∧
     data !! 1%nat = Some {| x0 := 120; y0 := 97; y1 := 92 |} ∧
     ∀ t groups,
       AreaChart.renderPaths Sample.props ["in"; "out"] "up" = Run t (Returned groups) →
       ∃ style pathStyle,
         groups !! 1%nat
         = Some (AreaChart.columnGroup Sample.props 1 "out" style pathStyle data)).
Proof.
  exact (renderPaths_stacked_bands Sample.props ["in"; "out"] "up" 1 1 "out"
           (60, {[ "in" := 3; "out" := 5 ]}) eq_refl eq_refl eq_refl).
Defined.

(** C4: when the stack prop is falsy the offsets stay all zeros through
    [renderPaths], whatever columns came before, so every data point of
    every column has [y0 = yScale(0)]; each column still gets one point per
    row. *)
Theorem renderPaths_overlaid_from_axis `{Externals} (props : Props.t)
    (columnList : list string) (direction : string) (k : nat) (column : string) :
  truthy_bool (Props.stack props) = false →
  columnList !! k = Some column →
  (∀ earlier,
     AreaChart.offsetsAfter props (AreaChart.dirOf direction) earlier
     = replicate (length (Props.series props)) 0) ∧
  ∃ data,
    AreaChart.columnData props columnList direction k = Some data ∧
    length data = length (Props.series props) ∧
    ∀ j pt, data !! j = Some pt → y0 pt = deref (Props.yScale props) 0.
Proof.
  intros Hstack Hk.
  assert (∀ earlier,
     AreaChart.offsetsAfter props (AreaChart.dirOf direction) earlier
     = replicate (length (Props.series props)) 0) as Hzeros
    by (intros earlier; by apply offsetsFrom_unstacked).
  split; [done|].
  unfold AreaChart.columnData. rewrite Hk. simpl. eexists. split; [reflexivity|].
  rewrite Hzeros. split; [apply stackColumn_data_length|].
  intros j pt Hpt.
  assert (j < length (Props.series props))%nat as Hj.
  { apply lookup_lt_Some in Hpt. by rewrite stackColumn_data_length in Hpt. }
  destruct (lookup_lt_is_Some_2 (Props.series props) j Hj) as [seriesPoint Hrow].
  destruct (stackColumn_row props (AreaChart.dirOf direction) column
              (replicate (length (Props.series props)) 0) j seriesPoint 0 Hrow
              (replicate_zero_lookup _ _ Hj)) as [Hdata _].
  rewrite Hdata in Hpt. by injection Hpt as <-.
Qed.

Lemma renderPaths_overlaid_from_axis_witness :
  (∀ earlier,
     AreaChart.offsetsAfter (Sample.with_stack None Sample.props) (AreaChart.dirOf "up") earlier
     = [0; 0]) ∧
  ∃ data,
    AreaChart.columnData (Sample.with_stack None Sample.props) ["in"; "out"] "up" 1
      = Some data ∧
    length data = 2%nat ∧
    ∀ j pt, data !! j = Some pt → y0 pt = 100.
Proof.
  exact (renderPaths_overlaid_from_axis (Sample.with_stack None Sample.props)
           ["in"; "out"] "up" 1 "out" eq_refl eq_refl).
Defined.

(** ** Claims on the rendered paths *)

(** C7: in the group of every column, the d attribute of the first path is
    d3's area generator, with the curve chosen by the interpolation prop
    and the accessors [x0], [y0], [y1], applied to the column's stacked
    data; the d attribute of the second path is d3's line generator with
    the same curve and the accessors [x0], [y1], applied to the same data. *)
Theorem renderPaths_delegates_geometry `{Externals} (props : Props.t)
    (columnList : list string) (direction : string) t groups (k : nat) (column : string) :
  AreaChart.renderPaths props columnList direction = Run t (Returned groups) →
  columnList !! k = Some column →
  ∃ data style pathStyle onClick onMouseLeave onMouseMove,
    AreaChart.columnData props columnList direction k = Some data ∧
    groups !! k =
      Some (g (Some ("area-" +:+ pretty k))
              [ path (area (curves (Props.interpolation props)) x0 y0 y1 data) style
                  onClick onMouseLeave onMouseMove;
                path (line (curves (Props.interpolation props)) x0 y1 data) pathStyle
                  onClick onMouseLeave onMouseMove ]).
Proof.
  intros Hrun Hk.
  destruct (renderPaths_returned props columnList direction t groups k column Hrun Hk)
    as (style & pathStyle & _ & _ & data & _ & _ & Hdata & Hg).
  exists data, style, pathStyle. do 3 eexists. split; [done|]. rewrite Hg. reflexivity.
Qed.

Lemma renderPaths_delegates_geometry_witness :
  ∃ data style pathStyle onClick onMouseLeave onMouseMove,
    AreaChart.columnData Sample.props ["in"; "out"] "up" 0 = Some data ∧
    Sample.up_groups !! 0%nat =
      Some (g (Some ("area-" +:+ pretty 0%nat))
              [ path (area (curves "curveLinear") x0 y0 y1 data) style
                  onClick onMouseLeave onMouseMove;
                path (line (curves "curveLinear") x0 y1 data) pathStyle
                  onClick onMouseLeave onMouseMove ]).
Proof.
  exact (renderPaths_delegates_geometry Sample.props ["in"; "out"] "up"
           [] Sample.up_groups 0 "in" eq_refl eq_refl).
Defined.

(** C5, as stated, fails for the click handler: without an
    [onSelectionChange] prop it still stops the propagation of the event. *)
Lemma handleClick_without_callback_stops_propagation :
  Props.onSelectionChange Sample.props = None ∧
  AreaChart.handleClick Sample.props (mouse_event 0) "in"
    = Run [stop_propagation (mouse_event 0)] (Returned tt) ∧
  AreaChart.handleClick Sample.props (mouse_event 0) "in" ≠ mret tt.
Proof. split; [reflexivity|]. split; [reflexivity|]. discriminate. Qed.

(** C5 (amended): both paths of every rendered column answer a mouse move
    with [handleHover] of that column, a mouse leave with
    [handleHoverLeave] and a click with [handleClick] of that column.
    [handleHover] calls [onHighlightChange] with the column and
    [handleHoverLeave] calls it with null, each exactly when the prop is
    provided, and does nothing otherwise; [handleClick] always stops the
    propagation of the event first and then calls [onSelectionChange] with
    the column exactly when that prop is provided.  No handler throws. *)
Theorem path_handlers `{Externals} (props : Props.t)
    (columnList : list string) (direction : string) t groups (k : nat) (column : string) :
  AreaChart.renderPaths props columnList direction = Run t (Returned groups) →
  columnList !! k = Some column →
  (∃ key d1 style1 d2 style2 onClick onMouseLeave onMouseMove,
     groups !! k = Some (g key [ path d1 style1 onClick onMouseLeave onMouseMove;
                                 path d2 style2 onClick onMouseLeave onMouseMove ]) ∧
     (∀ e, onMouseMove e = AreaChart.handleHover props e column) ∧
     onMouseLeave tt = AreaChart.handleHoverLeave props ∧
     (∀ e, onClick e = AreaChart.handleClick props e column)) ∧
  (∀ e, AreaChart.handleHover props e column =
        match Props.onHighlightChange props with
        | Some f => Run [call f (Some column)] (Returned tt)
        | None => Run [] (Returned tt)
        end) ∧
  AreaChart.handleHoverLeave props =
    match Props.onHighlightChange props with
    | Some f => Run [call f None] (Returned tt)
    | None => Run [] (Returned tt)
    end ∧
  (∀ e, AreaChart.handleClick props e column =
        match Props.onSelectionChange props with
        | Some f => Run [stop_propagation e; call f (Some column)] (Returned tt)
        | None => Run [stop_propagation e] (Returned tt)
        end).
Proof.
  intros Hrun Hk. split; [|split; [|split]].
  - destruct (renderPaths_returned props columnList direction t groups k column Hrun Hk)
      as (style & pathStyle & _ & _ & data & _ & _ & _ & Hg).
    rewrite Hg. unfold AreaChart.columnGroup. do 8 eexists. split; [reflexivity|]. done.
  - intros e. unfold AreaChart.handleHover. by destruct (Props.onHighlightChange props).
  - unfold AreaChart.handleHoverLeave. by destruct (Props.onHighlightChange props).
  - intros e. unfold AreaChart.handleClick. by destruct (Props.onSelectionChange props).
Qed.

Lemma path_handlers_witness :
  ∃ key d1 style1 d2 style2 onClick onMouseLeave onMouseMove,
    Sample.up_groups !! 1%nat
      = Some (g key [ path d1 style1 onClick onMouseLeave onMouseMove;
                      path d2 style2 onClick onMouseLeave onMouseMove ]) ∧
    (∀ e, onMouseMove e = AreaChart.handleHover Sample.props e "out") ∧
    onMouseLeave tt = AreaChart.handleHoverLeave Sample.props ∧
    (∀ e, onClick e = AreaChart.handleClick Sample.props e "out").
Proof.
  exact (proj1 (path_handlers Sample.props ["in"; "out"] "up"
                  [] Sample.up_groups 1 "out" eq_refl eq_refl)).
Defined.

(** ** Claims on updating *)

(** C8, as stated, fails on identical props whose width is NaN: the
    comparison [NaN !== NaN] reports a change. *)
Lemma shouldComponentUpdate_nan_width :
  let p := Sample.with_width nan Sample.props in
  AreaChart.shouldComponentUpdate p p = true.
Proof. reflexivity. Qed.

(** C8 (amended): [shouldComponentUpdate] returns false exactly when the
    nine tracked props are unchanged under the comparisons the code makes
    (series by size, then [TimeSeries.is]; timeScale via [scaleAsString];
    width by [!==]; interpolation; columns and style by JSON
    serialisation; yScale by reference; highlight; selection), and true
    as soon as one of them reports a change; identical props yield false
    whenever the width is not NaN. *)
Theorem shouldComponentUpdate_tracks_nine_props `{Externals} (props nextProps : Props.t) :
  (AreaChart.shouldComponentUpdate props nextProps = false
     ↔ Spec.unchanged props nextProps) ∧
  (AreaChart.shouldComponentUpdate props nextProps = true
     ↔ ¬ Spec.unchanged props nextProps) ∧
  (PrimFloat.eqb (Props.width props) (Props.width props) = true →
   AreaChart.shouldComponentUpdate props props = false).
Proof.
  assert (∀ p q, AreaChart.shouldComponentUpdate p q = false ↔ Spec.unchanged p q) as Hiff.
  { intros p q.
    unfold AreaChart.shouldComponentUpdate, Spec.unchanged,
      strict_neq, number_strict_neq, ref_strict_neq. cbv zeta.
    rewrite !orb_false_iff, !negb_false_iff, !bool_decide_eq_true, Pos.eqb_eq.
    assert ((if negb (length (Props.series p) =? length (Props.series q))%nat
             then true else negb (TimeSeries_is (Props.series p) (Props.series q))) = false
            ↔ length (Props.series p) = length (Props.series q)
              ∧ TimeSeries_is (Props.series p) (Props.series q) = true) as ->.
    { destruct (Nat.eqb_spec (length (Props.series p)) (length (Props.series q)));
        simpl; rewrite ?negb_false_iff; intuition congruence. }
    tauto. }
  split; [apply Hiff|]. split.
  - rewrite <- Hiff.
    destruct (AreaChart.shouldComponentUpdate props nextProps); intuition congruence.
  - intros Hwidth. apply Hiff. unfold Spec.unchanged.
    rewrite TimeSeries_is_refl. done.
Qed.

Lemma shouldComponentUpdate_tracks_nine_props_witness :
  AreaChart.shouldComponentUpdate Sample.props Sample.props = false.
Proof.
  exact (proj2 (proj2 (shouldComponentUpdate_tracks_nine_props Sample.props Sample.props))
           eq_refl).
Defined.

(** ** Claims on Baseline *)

(** C10: [Baseline.render] returns null exactly when the yScale prop is
    absent or the value prop is undefined.  Otherwise it returns a group
    translated to [yScale(value)], with a polyline through "0 0" and
    "width 0", and a label that sits at x = 5 with anchor "start" when
    position is "left" and at x = width - 5 with anchor "end" when position
    is "right"; "left" is the default position. *)
Theorem baseline_render (Number_toString : number → string)
    (lodash_merge : option CSSProperties → CSSProperties → CSSProperties)
    (baselineDefaultStyle : gmap string CSSProperties) (props : BaselineProps.t) :
  let render := Baseline.render Number_toString lodash_merge baselineDefaultStyle in
  (render props = None
     ↔ BaselineProps.yScale props = None ∨ BaselineProps.value props = None) ∧
  (∀ yScale value,
     BaselineProps.yScale props = Some yScale →
     BaselineProps.value props = Some value →
     ∃ lineStyle labelStyle textPositionX textAnchor,
       render props =
         Some {| Baseline.className := "baseline";
                 Baseline.transform := "translate(0 " +:+ Number_toString (yScale value) +:+ ")";
                 Baseline.polyline :=
                   {| Baseline.points :=
                        "0 0 " +:+ Number_toString (BaselineProps.width props) +:+ " 0";
                      Baseline.polyline_style := lineStyle |};
                 Baseline.label :=
                   {| Baseline.text_style := labelStyle;
                      Baseline.x := textPositionX;
                      Baseline.y := -3;
                      Baseline.textAnchor := textAnchor;
                      Baseline.text := BaselineProps.label props |} |} ∧
       (BaselineProps.position props = "left" →
        textPositionX = Some 5 ∧ textAnchor = Some "start") ∧
       (BaselineProps.position props = "right" →
        textPositionX = Some (BaselineProps.width props - 5) ∧ textAnchor = Some "end")) ∧
  Baseline.position (Baseline.defaultProps baselineDefaultStyle) = "left".
Proof.
  cbv zeta. split; [|split; [|reflexivity]].
  - unfold Baseline.render.
    destruct (BaselineProps.yScale props), (BaselineProps.value props);
      try (split; [by auto | done]).
    split; [|by intros [?|?]].
    by destruct (String.eqb _ "left"), (String.eqb _ "right").
  - intros yScale value HyScale Hvalue. unfold Baseline.render.
    rewrite HyScale, Hvalue.
    destruct (String.eqb_spec (BaselineProps.position props) "left") as [Hl|Hl];
      destruct (String.eqb_spec (BaselineProps.position props) "right") as [Hr|Hr];
      do 4 eexists; (split; [reflexivity|]); split; intros Hp; try done; congruence.
Qed.

(** ** The store reading of [renderPaths] *)

Section StoreMonad.
Import Store.
Context {A B : Type}.

Lemma HM_bind_unfold (m : HM A) (f : A → HM B) h :
  (m ≫= f) h =
  let '(h1, r1) := m h in
  match result r1 with
  | Returned a => let '(h2, r2) := f a h1 in (h2, Run (trace r1 ++ trace r2) (result r2))
  | Thrown e => (h1, Run (trace r1) (Thrown e))
  end.
Proof. reflexivity. Qed.

(** A step that returns without logging hands its heap to the rest. *)
Lemma HM_bind_ret (m : HM A) (f : A → HM B) h h1 a :
  m h = (h1, mret a) → (m ≫= f) h = f a h1.
Proof.
  intros Hm. rewrite HM_bind_unfold, Hm. simpl.
  by destruct (f a h1) as [h2 [t2 r2]].
Qed.

Lemma HM_bind_lift (p : M A) (f : A → HM B) h :
  (lift p ≫= f) h =
  match result p with
  | Returned a => let '(h2, r2) := f a h in (h2, Run (trace p ++ trace r2) (result r2))
  | Thrown e => (h, Run (trace p) (Thrown e))
  end.
Proof. reflexivity. Qed.
End StoreMonad.

Section StoreFacts.
Import Store.
Context `{Externals}.
Variable props : Props.t.

Lemma keeps_refl h : keeps h h.
Proof. by intros l _. Qed.

Lemma keeps_trans h1 h2 h3 : keeps h1 h2 → keeps h2 h3 → keeps h1 h3.
Proof.
  intros H12 H23 l Hl. rewrite H23, H12; [done..|]. by rewrite H12.
Qed.

Lemma fresh_not_allocated (h : gmap positive Cell) : h !! fresh (dom h) = None.
Proof. apply not_elem_of_dom. apply is_fresh. Qed.

Lemma keeps_alloc h c : keeps h (<[fresh (dom h) := c]> h).
Proof.
  intros l Hl. apply lookup_insert_ne. intros <-.
  rewrite fresh_not_allocated in Hl. by destruct Hl.
Qed.

Lemma stackLoop_store dir column rest j data offsets d o (h : gmap positive Cell) :
  h !! data = Some (points d) →
  h !! offsets = Some (numbers o) →
  data ≠ offsets →
  ∃ h', Store.stackLoop props dir column rest j data offsets h = (h', mret tt) ∧
        h' !! data = Some (points (AreaChart.stackLoop props dir column rest j d o).1) ∧
        h' !! offsets = Some (numbers (AreaChart.stackLoop props dir column rest j d o).2) ∧
        ∀ l, l ≠ data → l ≠ offsets → h' !! l = h !! l.
Proof.
  revert j d o h. induction rest as [|seriesPoint rest IH]; intros j d o h Hd Ho Hne.
  - exists h. by repeat split.
  - set (pt := {| x0 := Props.timeScale props (timestamp seriesPoint);
                  y0 := deref (Props.yScale props) (AreaChart.offset_at o j);
                  y1 := deref (Props.yScale props)
                          (AreaChart.offset_at o j + dir * get seriesPoint column) |}).
    set (o1 := if truthy_bool (Props.stack props)
               then <[j := AreaChart.offset_at o j + dir * get seriesPoint column]> o
               else o).
    set (h1 := <[data := points (d ++ [pt])]> h).
    set (h2 := if truthy_bool (Props.stack props)
               then <[offsets := numbers o1]> h1 else h1).
    assert (h2 !! data = Some (points (d ++ [pt]))) as Hd2.
    { subst h2 h1. destruct (truthy_bool _).
      - rewrite lookup_insert_ne by done. apply lookup_insert_eq.
      - apply lookup_insert_eq. }
    assert (h2 !! offsets = Some (numbers o1)) as Ho2.
    { subst h2 h1 o1. destruct (truthy_bool _).
      - apply lookup_insert_eq.
      - by rewrite lookup_insert_ne. }
    destruct (IH (S j) (d ++ [pt]) o1 h2 Hd2 Ho2 Hne) as (h' & Hrun & Hd' & Ho' & Hframe).
    exists h'. split; [|split; [|split]].
    + rewrite <- Hrun. simpl.
      rewrite (HM_bind_ret (read_numbers offsets) _ h h o) by
        (unfold read_numbers, numbers_at; by rewrite Ho).
      rewrite (HM_bind_ret (push data pt) _ h h1 tt) by
        (unfold push, points_at; by rewrite Hd).
      erewrite (HM_bind_ret _ _ h1 h2 tt); [reflexivity|]. subst h2 o1.
      destruct (truthy_bool (Props.stack props)); [|done].
      rewrite (HM_bind_ret (read_numbers offsets) _ h1 h1 o); [|].
      * unfold write, numbers_at. subst h1. by rewrite lookup_insert_ne, Ho.
      * unfold read_numbers, numbers_at. subst h1. by rewrite lookup_insert_ne, Ho.
    + exact Hd'.
    + exact Ho'.
    + intros l Hl1 Hl2. rewrite Hframe by done. subst h2 h1.
      destruct (truthy_bool _); by rewrite !lookup_insert_ne.
Qed.
End StoreFacts.

Section StoreRefinement.
Import Store.
Context `{Externals}.
Variable props : Props.t.

(** The map over a column list kept in the heap returns what the map
    over its content returns, and writes only to [offsets] and to cells
    it allocates. *)
Lemma mapColumns_store dir columnList offsets cols n i o (h : gmap positive Cell) :
  h !! columnList = Some (strings cols) →
  h !! offsets = Some (numbers o) →
  columnList ≠ offsets →
  (n + i = length cols)%nat →
  ∃ h', Store.mapColumns props dir columnList n i offsets h
          = (h', AreaChart.mapColumns props dir (drop i cols) i o) ∧
        ∀ l, is_Some (h !! l) → l ≠ offsets → h' !! l = h !! l.
Proof.
  revert i o h. induction n as [|n IH]; intros i o h Hcols Ho Hne Hlen.
  - exists h. rewrite drop_ge by lia. by split.
  - destruct (lookup_lt_is_Some_2 cols i) as [column Hi]; [lia|].
    rewrite (drop_S cols column i Hi). simpl.
    rewrite (HM_bind_ret (read_strings columnList) _ h h cols) by
      (unfold read_strings, strings_at; by rewrite Hcols).
    rewrite Hi, HM_bind_lift, (bind_unfold (AreaChart.areaStyle props column)).
    destruct (AreaChart.areaStyle props column) as [ts [style|e]]; simpl;
      [|exists h; by split].
    rewrite HM_bind_lift, (bind_unfold (AreaChart.pathStyle props column)).
    destruct (AreaChart.pathStyle props column) as [tp [pathStyle|e]]; simpl;
      [|exists h; by split].
    set (data := fresh (dom h)).
    set (h1 := <[data := points []]> h).
    assert (h !! data = None) as Hfresh by apply fresh_not_allocated.
    assert (data ≠ offsets) as Hdo by (intros ->; congruence).
    assert (data ≠ columnList) as Hdc by (intros ->; congruence).
    rewrite (HM_bind_ret (alloc (points [])) _ h h1 data) by done.
    destruct (stackLoop_store props dir column (Props.series props) 0 data offsets [] o h1)
      as (h2 & Hloop & Hdata & Hoffsets & Hframe).
    { apply lookup_insert_eq. }
    { subst h1. by rewrite lookup_insert_ne. }
    { done. }
    rewrite (HM_bind_ret _ _ h1 h2 tt Hloop).
    rewrite (HM_bind_ret (read_points data) _ h2 h2
               (AreaChart.stackColumn props dir column o).1) by
      (unfold read_points, points_at; by rewrite Hdata).
    destruct (IH (S i) (AreaChart.stackColumn props dir column o).2 h2)
      as (h3 & Hrest & Hframe3).
    { rewrite Hframe by done. subst h1. by rewrite lookup_insert_ne. }
    { exact Hoffsets. }
    { done. }
    { lia. }
    exists h3. split.
    + rewrite HM_bind_unfold, Hrest.
      destruct (AreaChart.stackColumn props dir column o) as [d o'] eqn:Hstack.
      simpl. rewrite (bind_unfold (AreaChart.mapColumns _ _ _ _ _)).
      by destruct (AreaChart.mapColumns props dir (drop (S i) cols) (S i) o')
        as [t3 [groups|e]].
    + intros l Hl Hlo.
      assert (l ≠ data) as Hld by (intros ->; rewrite Hfresh in Hl; by destruct Hl).
      assert (h2 !! l = h !! l) as Hl2.
      { rewrite Hframe by done. subst h1. by rewrite lookup_insert_ne. }
      rewrite Hframe3; [done| |done]. by rewrite Hl2.
Qed.

Lemma renderPaths_store columnList direction cols (h : gmap positive Cell) :
  h !! columnList = Some (strings cols) →
  ∃ h', Store.renderPaths props columnList direction h
          = (h', AreaChart.renderPaths props cols direction) ∧
        keeps h h'.
Proof.
  intros Hcols. unfold Store.renderPaths, AreaChart.renderPaths.
  set (offsets := fresh (dom h)).
  set (zeros := replicate (length (Props.series props)) 0).
  set (h1 := <[offsets := numbers zeros]> h).
  assert (h !! offsets = None) as Hfresh by apply fresh_not_allocated.
  assert (columnList ≠ offsets) as Hne by (intros ->; congruence).
  assert (h1 !! columnList = Some (strings cols)) as Hcols1
    by (subst h1; by rewrite lookup_insert_ne).
  rewrite (HM_bind_ret (alloc (numbers zeros)) _ h h1 offsets) by done.
  rewrite (HM_bind_ret (read_strings columnList) _ h1 h1 cols) by
    (unfold read_strings, strings_at; by rewrite Hcols1).
  destruct (mapColumns_store (AreaChart.dirOf direction) columnList offsets cols
              (length cols) 0 zeros h1) as (h' & Hrun & Hframe).
  { done. }
  { apply lookup_insert_eq. }
  { done. }
  { lia. }
  exists h'. split; [by rewrite Hrun|].
  intros l Hl.
  assert (l ≠ offsets) as Hlo by (intros ->; rewrite Hfresh in Hl; by destruct Hl).
  assert (h1 !! l = h !! l) as Hl1 by (subst h1; by apply lookup_insert_ne).
  rewrite Hframe; [done|by rewrite Hl1|done].
Qed.
End StoreRefinement.

Section RenderStore.
Import Store.
Context `{Externals}.
Variable props : Props.t.

(** [columns.up || []]: the array named by the prop, or a new empty one. *)
Lemma column_list_store (h : gmap positive Cell) at_ a :
  holds h at_ a →
  ∃ h1 l, (match at_ with Some l => mret l | None => alloc (strings []) end) h
            = (h1, mret l) ∧
          h1 !! l = Some (strings (default [] a)) ∧ keeps h h1.
Proof.
  destruct at_ as [l|], a as [a|]; try done; intros Hholds.
  - exists h, l. split; [done|]. split; [done|]. apply keeps_refl.
  - exists (<[fresh (dom h) := strings []]> h), (fresh (dom h)).
    split; [done|]. split; [apply lookup_insert_eq|]. apply keeps_alloc.
Qed.

Lemma renderAreas_store (h : gmap positive Cell) up_at down_at :
  holds_columns props h up_at down_at →
  ∃ h', Store.renderAreas props up_at down_at h = (h', AreaChart.renderAreas props) ∧
        keeps h h'.
Proof.
  intros [Hup Hdown]. unfold Store.renderAreas, AreaChart.renderAreas.
  destruct (column_list_store h up_at _ Hup) as (h1 & up_l & Hrun1 & Hup1 & Hk1).
  rewrite (HM_bind_ret _ _ h h1 up_l Hrun1).
  assert (holds h1 down_at (down (Props.columns props))) as Hdown1.
  { unfold holds in *. destruct down_at as [l|], (down (Props.columns props)); try done.
    rewrite Hk1; [done|]. by rewrite Hdown. }
  destruct (column_list_store h1 down_at _ Hdown1) as (h2 & down_l & Hrun2 & Hdown2 & Hk2).
  rewrite (HM_bind_ret _ _ h1 h2 down_l Hrun2).
  assert (h2 !! up_l = Some (strings (default [] (up (Props.columns props))))) as Hup2.
  { rewrite Hk2; [done|]. by rewrite Hup1. }
  destruct (renderPaths_store props up_l "up" _ h2 Hup2) as (h3 & Hrun3 & Hk3).
  assert (h3 !! down_l = Some (strings (default [] (down (Props.columns props))))) as Hdown3.
  { rewrite Hk3; [done|]. by rewrite Hdown2. }
  destruct (renderPaths_store props down_l "down" _ h3 Hdown3) as (h4 & Hrun4 & Hk4).
  rewrite HM_bind_unfold, Hrun3.
  rewrite (bind_unfold (AreaChart.renderPaths props _ "up")).
  destruct (AreaChart.renderPaths props _ "up") as [t3 [ups|e]]; simpl.
  - exists h4. split.
    + rewrite HM_bind_unfold, Hrun4.
      rewrite (bind_unfold (AreaChart.renderPaths props _ "down")).
      by destruct (AreaChart.renderPaths props _ "down") as [t4 [downs|e]].
    + eauto using keeps_trans.
  - exists h3. split; [done|]. eauto using keeps_trans.
Qed.

Lemma render_store (h : gmap positive Cell) up_at down_at :
  holds_columns props h up_at down_at →
  ∃ h', Store.render props up_at down_at h = (h', AreaChart.render props) ∧ keeps h h'.
Proof.
  intros Hholds. unfold Store.render, AreaChart.render.
  destruct (renderAreas_store h up_at down_at Hholds) as (h' & Hrun & Hkeeps).
  exists h'. split; [|done].
  rewrite HM_bind_unfold, Hrun. rewrite (bind_unfold (AreaChart.renderAreas props)).
  by destruct (AreaChart.renderAreas props) as [t [areas|e]].
Qed.
End RenderStore.

(** ** The effects of a render *)

Section RenderEffects.
Context `{Externals}.
Variable props : Props.t.

Lemma bind_trace {A B} (m : M A) (f : A → M B) :
  trace (m ≫= f) =
  trace m ++ match result m with Returned a => trace (f a) | Thrown _ => [] end.
Proof. rewrite bind_unfold. destruct (result m); simpl; by rewrite ?app_nil_r. Qed.

Lemma bind_only_logs {A B} (m : M A) (f : A → M B) :
  only_logs (trace m) → (∀ a, only_logs (trace (f a))) → only_logs (trace (m ≫= f)).
Proof.
  intros Hm Hf. rewrite bind_trace. apply Forall_app. split; [done|].
  destruct (result m); [apply Hf|constructor].
Qed.

Lemma style_only_logs column type :
  type = "line" ∨ type = "area" → only_logs (trace (AreaChart.style props column type)).
Proof.
  intros Ht. destruct (style_run props column type Ht) as [-> _].
  unfold only_logs. destruct (has _ "line"), (has _ "area"); repeat constructor.
Qed.

(** A column whose two styles are returned has logged nothing. *)
Lemma styles_returned_silent column ts tp style pathStyle :
  AreaChart.areaStyle props column = Run ts (Returned style) →
  AreaChart.pathStyle props column = Run tp (Returned pathStyle) →
  ts = [] ∧ tp = [].
Proof.
  unfold AreaChart.areaStyle, AreaChart.pathStyle. intros Harea Hline.
  assert (has (AreaChart.providedAreaStyleMap props column) "area" = true) as Ha.
  { apply (style_returns_iff props column "area"); [by right|]. rewrite Harea. eauto. }
  assert (has (AreaChart.providedAreaStyleMap props column) "line" = true) as Hl.
  { apply (style_returns_iff props column "line"); [by left|]. rewrite Hline. eauto. }
  destruct (style_run props column "area") as [Hta _]; [by right|].
  destruct (style_run props column "line") as [Htl _]; [by left|].
  rewrite Ha, Hl in Hta, Htl. rewrite Harea in Hta. rewrite Hline in Htl. done.
Qed.

Lemma mapColumns_effects dir columnList i offsets :
  only_logs (trace (AreaChart.mapColumns props dir columnList i offsets)) ∧
  ∀ t groups,
    AreaChart.mapColumns props dir columnList i offsets = Run t (Returned groups) → t = [].
Proof.
  revert i offsets. induction columnList as [|column columnList IH]; intros i offsets.
  - split; [constructor|]. intros t groups Hrun. by apply mret_returned in Hrun as [-> _].
  - split.
    + simpl. apply bind_only_logs; [apply style_only_logs; by right|]. intros style.
      apply bind_only_logs; [apply style_only_logs; by left|]. intros pathStyle.
      destruct (AreaChart.stackColumn props dir column offsets) as [data offsets'].
      apply bind_only_logs; [apply IH|]. intros groups. constructor.
    + intros t groups Hrun. simpl in Hrun.
      apply bind_returned in Hrun as (style & ts & t1 & Hstyle & Hrun & ->).
      apply bind_returned in Hrun as (pathStyle & tp & t2 & HpathStyle & Hrun & ->).
      destruct (AreaChart.stackColumn props dir column offsets) as [data offsets'].
      apply bind_returned in Hrun as (rest & t3 & t4 & Hrest & Hrun & ->).
      apply mret_returned in Hrun as [-> _].
      apply IH in Hrest as ->.
      by destruct (styles_returned_silent column ts tp style pathStyle Hstyle HpathStyle)
        as [-> ->].
Qed.

Lemma render_effects :
  only_logs (trace (AreaChart.render props)) ∧
  ∀ t element, AreaChart.render props = Run t (Returned element) → t = [].
Proof.
  unfold AreaChart.render, AreaChart.renderAreas, AreaChart.renderPaths. split.
  - apply bind_only_logs; [|intros; constructor].
    apply bind_only_logs; [apply mapColumns_effects|]. intros ups.
    apply bind_only_logs; [apply mapColumns_effects|]. intros downs. constructor.
  - intros t element Hrun.
    apply bind_returned in Hrun as (areas & t1 & t2 & Hareas & Hrun & ->).
    apply mret_returned in Hrun as [-> _].
    apply bind_returned in Hareas as (ups & t3 & t4 & Hups & Hareas & ->).
    apply bind_returned in Hareas as (downs & t5 & t6 & Hdowns & Hareas & ->).
    apply mret_returned in Hareas as [-> _].
    apply mapColumns_effects in Hups as ->. by apply mapColumns_effects in Hdowns as ->.
Qed.
End RenderEffects.

Lemma baseline_render_witness :
  ∃ lineStyle labelStyle,
    Baseline.render Sample.Number_toString Sample.lodash_merge ∅ Sample.baseline =
      Some {| Baseline.className := "baseline";
              Baseline.transform := "translate(0 #)";
              Baseline.polyline :=
                {| Baseline.points := "0 0 # 0"; Baseline.polyline_style := lineStyle |};
              Baseline.label :=
                {| Baseline.text_style := labelStyle;
                   Baseline.x := Some 295;
                   Baseline.y := -3;
                   Baseline.textAnchor := Some "end";
                   Baseline.text := "avg" |} |}.
Proof.
  destruct (proj1 (proj2 (baseline_render Sample.Number_toString Sample.lodash_merge ∅
                            Sample.baseline)) (λ v, 100 - v) 40 eq_refl eq_refl)
    as (lineStyle & labelStyle & textPositionX & textAnchor & Hrender & _ & Hright).
  destruct (Hright eq_refl) as [-> ->].
  exists lineStyle, labelStyle. exact Hrender.
Defined.

(** * Further properties of the code *)

(** ** Stacking *)

Section StackingFacts.
Context `{Externals}.
Variable props : Props.t.

Lemma offsetsAfter_length dir earlier :
  length (AreaChart.offsetsAfter props dir earlier) = length (Props.series props).
Proof.
  unfold AreaChart.offsetsAfter. rewrite offsetsFrom_length. apply length_replicate.
Qed.

Lemma cumulative_snoc dir seriesPoint columnList k column :
  columnList !! k = Some column →
  AreaChart.cumulative dir seriesPoint (take (S k) columnList)
  = AreaChart.cumulative dir seriesPoint (take k columnList) + dir * get seriesPoint column.
Proof.
  intros Hk. rewrite (take_S_r _ _ _ Hk). unfold AreaChart.cumulative.
  by rewrite foldl_app.
Qed.

Lemma columnData_some columnList direction k column :
  columnList !! k = Some column →
  AreaChart.columnData props columnList direction k
  = Some (AreaChart.stackColumn props (AreaChart.dirOf direction) column
            (AreaChart.offsetsAfter props (AreaChart.dirOf direction)
               (take k columnList))).1.
Proof. intros Hk. unfold AreaChart.columnData. by rewrite Hk. Qed.

(** The point of a stacked column in one row. *)
Lemma columnData_stacked_row columnList direction k column j seriesPoint :
  truthy_bool (Props.stack props) = true →
  columnList !! k = Some column →
  Props.series props !! j = Some seriesPoint →
  ∃ data,
    AreaChart.columnData props columnList direction k = Some data ∧
    data !! j = Some (AreaChart.pointAt props (AreaChart.dirOf direction) column seriesPoint
                        (AreaChart.cumulative (AreaChart.dirOf direction) seriesPoint
                           (take k columnList))).
Proof.
  intros Hstack Hk Hj. rewrite (columnData_some _ _ _ _ Hk). eexists. split; [done|].
  eapply stackColumn_row; [done|].
  unfold AreaChart.offsetsAfter, AreaChart.cumulative.
  apply offsetsFrom_row; [done..|].
  apply replicate_zero_lookup. by eapply lookup_lt_Some.
Qed.

(** The point of any column in one row, read from the offsets in force. *)
Lemma columnData_row columnList direction k column j seriesPoint :
  columnList !! k = Some column →
  Props.series props !! j = Some seriesPoint →
  ∃ data v,
    AreaChart.columnData props columnList direction k = Some data ∧
    AreaChart.offsetsAfter props (AreaChart.dirOf direction) (take k columnList) !! j
      = Some v ∧
    data !! j = Some (AreaChart.pointAt props (AreaChart.dirOf direction) column
                        seriesPoint v).
Proof.
  intros Hk Hj. rewrite (columnData_some _ _ _ _ Hk).
  destruct (lookup_lt_is_Some_2
              (AreaChart.offsetsAfter props (AreaChart.dirOf direction) (take k columnList)) j)
    as [v Hv].
  { rewrite offsetsAfter_length. by eapply lookup_lt_Some. }
  eexists _, v. split; [done|]. split; [done|]. by eapply stackColumn_row.
Qed.
End StackingFacts.

(** X1: stacked bands are contiguous.  With the stack prop true, in every
    row the lower boundary [y0] of column [k + 1] is the upper boundary
    [y1] of column [k] of the same list, the same floating-point number
    passed through [yScale]. *)
Theorem stacked_bands_are_contiguous `{Externals} (props : Props.t)
    (columnList : list string) (direction : string) (k j : nat)
    (lower upper : string) (seriesPoint : Event) :
  truthy_bool (Props.stack props) = true →
  columnList !! k = Some lower →
  columnList !! S k = Some upper →
  Props.series props !! j = Some seriesPoint →
  ∃ below above pt_below pt_above,
    AreaChart.columnData props columnList direction k = Some below ∧
    AreaChart.columnData props columnList direction (S k) = Some above ∧
    below !! j = Some pt_below ∧
    above !! j = Some pt_above ∧
    y0 pt_above = y1 pt_below.
Proof.
  intros Hstack Hlower Hupper Hj.
  destruct (columnData_stacked_row props columnList direction k lower j seriesPoint
              Hstack Hlower Hj) as (below & Hbelow & Hpt_below).
  destruct (columnData_stacked_row props columnList direction (S k) upper j seriesPoint
              Hstack Hupper Hj) as (above & Habove & Hpt_above).
  do 4 eexists. repeat (split; [eassumption|]).
  simpl. by rewrite (cumulative_snoc _ _ _ _ _ Hlower).
Qed.

Lemma stacked_bands_are_contiguous_witness :
  ∃ below above pt_below pt_above,
    AreaChart.columnData Sample.props ["in"; "out"] "up" 0 = Some below ∧
    AreaChart.columnData Sample.props ["in"; "out"] "up" 1 = Some above ∧
    below !! 1%nat = Some pt_below ∧
    above !! 1%nat = Some pt_above ∧
    y0 pt_above = y1 pt_below.
Proof.
  exact (stacked_bands_are_contiguous Sample.props ["in"; "out"] "up" 0 1 "in" "out"
           (60, {[ "in" := 3; "out" := 5 ]}) eq_refl eq_refl eq_refl eq_refl).
Defined.

(** X2: without stacking a column is drawn from the axis whatever else is
    listed.  With the stack prop falsy, the data of a column is the same at
    any position of any column list, and its point in a row is
    [(timeScale(t), yScale(0), yScale(0 + dir * v))]. *)
Theorem unstacked_column_ignores_the_others `{Externals} (props : Props.t)
    (list1 list2 : list string) (direction : string) (k1 k2 : nat) (column : string) :
  truthy_bool (Props.stack props) = false →
  list1 !! k1 = Some column →
  list2 !! k2 = Some column →
  AreaChart.columnData props list1 direction k1
    = AreaChart.columnData props list2 direction k2 ∧
  ∃ data,
    AreaChart.columnData props list1 direction k1 = Some data ∧
    ∀ j seriesPoint,
      Props.series props !! j = Some seriesPoint →
      data !! j = Some {| x0 := Props.timeScale props (timestamp seriesPoint);
                          y0 := deref (Props.yScale props) 0;
                          y1 := deref (Props.yScale props)
                                  (0 + AreaChart.dirOf direction
                                       * get seriesPoint column) |}.
Proof.
  intros Hstack H1 H2.
  rewrite (columnData_some _ _ _ _ _ H1), (columnData_some _ _ _ _ _ H2).
  unfold AreaChart.offsetsAfter. rewrite !offsetsFrom_unstacked by done.
  split; [done|]. eexists. split; [done|].
  intros j seriesPoint Hj.
  eapply stackColumn_row; [done|].
  apply replicate_zero_lookup. by eapply lookup_lt_Some.
Qed.

Lemma unstacked_column_ignores_the_others_witness :
  AreaChart.columnData (Sample.with_stack (Some false) Sample.props) ["in"; "out"] "up" 1
    = AreaChart.columnData (Sample.with_stack (Some false) Sample.props) ["out"] "up" 0.
Proof.
  exact (proj1 (unstacked_column_ignores_the_others
                  (Sample.with_stack (Some false) Sample.props)
                  ["in"; "out"] ["out"] "up" 1 0 "out" eq_refl eq_refl eq_refl)).
Defined.

(** X3: every listed column gets exactly one point per row of the series,
    in row order, whose [x0] is [timeScale] of the row's timestamp, with or
    without stacking; an index past the end of the column list has no
    data. *)
Theorem column_data_follows_rows `{Externals} (props : Props.t)
    (columnList : list string) (direction : string) (k : nat) :
  (AreaChart.columnData props columnList direction k = None
     ↔ (length columnList ≤ k)%nat) ∧
  (∀ data,
     AreaChart.columnData props columnList direction k = Some data →
     length data = length (Props.series props) ∧
     ∀ j seriesPoint,
       Props.series props !! j = Some seriesPoint →
       ∃ pt, data !! j = Some pt ∧
             x0 pt = Props.timeScale props (timestamp seriesPoint)).
Proof.
  split.
  - unfold AreaChart.columnData.
    destruct (columnList !! k) as [column|] eqn:Hk; simpl.
    + split; [done|]. intros Hle. apply lookup_lt_Some in Hk. lia.
    + split; [|done]. intros _. by apply lookup_ge_None.
  - intros data Hdata.
    destruct (columnList !! k) as [column|] eqn:Hk;
      [|unfold AreaChart.columnData in Hdata; by rewrite Hk in Hdata].
    rewrite (columnData_some _ _ _ _ _ Hk) in Hdata. injection Hdata as <-.
    split; [apply stackColumn_data_length|].
    intros j seriesPoint Hj.
    destruct (columnData_row props columnList direction k column j seriesPoint Hk Hj)
      as (data & v & Hdata & _ & Hpt).
    rewrite (columnData_some _ _ _ _ _ Hk) in Hdata. injection Hdata as <-.
    eexists. split; [exact Hpt|done].
Qed.

(** The data of a column is computed from the columns before it only. *)
Lemma column_data_unchanged_by_later_columns `{Externals} (props : Props.t)
    (columnList later : list string) (direction : string) (k : nat) :
  (k < length columnList)%nat →
  AreaChart.columnData props (columnList ++ later) direction k
  = AreaChart.columnData props columnList direction k.
Proof.
  intros Hk. unfold AreaChart.columnData.
  rewrite lookup_app_l by done. by rewrite take_app_le by lia.
Qed.

(** X4: columns listed later do not change what [renderPaths] draws for
    the earlier ones: when the call on a column list and the call on that
    list with more columns appended both return, they return the same
    group (key, paths, styles, handlers) at every index of the shorter
    list. *)
Theorem earlier_groups_unchanged_by_later_columns `{Externals} (props : Props.t)
    (columnList later : list string) (direction : string)
    t groups t' groups' (k : nat) :
  AreaChart.renderPaths props columnList direction = Run t (Returned groups) →
  AreaChart.renderPaths props (columnList ++ later) direction = Run t' (Returned groups') →
  (k < length columnList)%nat →
  groups' !! k = groups !! k.
Proof.
  intros Hrun Hrun' Hk.
  destruct (lookup_lt_is_Some_2 columnList k Hk) as [column Hcolumn].
  assert ((columnList ++ later) !! k = Some column) as Hcolumn'
    by (by rewrite lookup_app_l).
  destruct (renderPaths_returned props columnList direction t groups k column
              Hrun Hcolumn) as (style & pathStyle & ts & tp & data & Hs & Hp & Hd & ->).
  destruct (renderPaths_returned props (columnList ++ later) direction t' groups' k column
              Hrun' Hcolumn') as (style' & pathStyle' & ts' & tp' & data' & Hs' & Hp' & Hd' & ->).
  rewrite column_data_unchanged_by_later_columns in Hd' by done.
  congruence.
Qed.

Lemma earlier_groups_unchanged_by_later_columns_witness :
  Sample.up_groups !! 0%nat = Cases.in_groups !! 0%nat.
Proof.
  exact (earlier_groups_unchanged_by_later_columns Sample.props ["in"] ["out"] "up"
           [] Cases.in_groups [] Sample.up_groups 0 eq_refl eq_refl (Nat.lt_0_succ 0)).
Defined.

(** X5: the offsets array keeps the length of the series through any run
    of columns, so the loop reads [offsets[j]] inside the array for every
    row and never computes with undefined. *)
Theorem offsets_keep_series_length `{Externals} (props : Props.t)
    (direction : string) (earlier : list string) :
  length (AreaChart.offsetsAfter props (AreaChart.dirOf direction) earlier)
    = length (Props.series props) ∧
  ∀ j, (j < length (Props.series props))%nat →
    ∃ v, AreaChart.offsetsAfter props (AreaChart.dirOf direction) earlier !! j = Some v ∧
         AreaChart.offset_at
           (AreaChart.offsetsAfter props (AreaChart.dirOf direction) earlier) j = v.
Proof.
  split; [apply offsetsAfter_length|].
  intros j Hj.
  destruct (lookup_lt_is_Some_2
              (AreaChart.offsetsAfter props (AreaChart.dirOf direction) earlier) j)
    as [v Hv]; [by rewrite offsetsAfter_length|].
  exists v. split; [done|]. unfold AreaChart.offset_at. by rewrite Hv.
Qed.

(** ** Styles and the success of a render *)

Section StyledFacts.
Context `{Externals}.
Variable props : Props.t.

(** The whole run of [style] for one of the two types. *)
Lemma style_eq column type :
  type = "line" ∨ type = "area" →
  let styleMap := AreaChart.providedAreaStyleMap props column in
  ∃ builtin,
    defaultVariant type (Spec.variant props column) = Some builtin ∧
    AreaChart.style props column type =
      Run ((if has styleMap "line" then [] else [outline_message styleMap column]) ++
           (if has styleMap "area" then [] else [area_message styleMap]))
          (match styleMap with
           | None => Thrown (TypeError type)
           | Some m =>
               match m !! type with
               | None => Thrown (TypeError (Spec.variant props column))
               | Some provided =>
                   Returned (merge true (Some builtin)
                               (Some (default ∅ (provided !! Spec.variant props column))))
               end
           end).
Proof.
  intros Ht. cbv zeta.
  destruct (style_run props column type Ht) as [Htrace Hresult].
  destruct (mergeVariant_cases (AreaChart.providedAreaStyleMap props column) type
              (Spec.variant props column) Ht
              (spec_variant_cases props column)) as (builtin & Hbuiltin & Hmerge).
  exists builtin. split; [done|].
  rewrite Hmerge in Hresult.
  destruct (AreaChart.style props column type) as [t r]. simpl in Htrace, Hresult.
  rewrite Htrace, Hresult.
  destruct (AreaChart.providedAreaStyleMap props column) as [m|]; [|done].
  by destruct (m !! type).
Qed.

Lemma styled_has column :
  styled props column = true ↔
  has (AreaChart.providedAreaStyleMap props column) "line" = true ∧
  has (AreaChart.providedAreaStyleMap props column) "area" = true.
Proof. unfold styled. apply andb_true_iff. Qed.


Lemma styled_of_returned column ts tp style pathStyle :
  AreaChart.areaStyle props column = Run ts (Returned style) →
  AreaChart.pathStyle props column = Run tp (Returned pathStyle) →
  styled props column = true.
Proof.
  unfold AreaChart.areaStyle, AreaChart.pathStyle. intros Harea Hline.
  apply styled_has. split.
  - apply (style_returns_iff props column "line"); [by left|]. rewrite Hline. eauto.
  - apply (style_returns_iff props column "area"); [by right|]. rewrite Harea. eauto.
Qed.

Lemma mapColumns_all_styled dir columnList i offsets t groups :
  AreaChart.mapColumns props dir columnList i offsets = Run t (Returned groups) →
  Forall (λ column, styled props column = true) columnList.
Proof.
  intros Hrun. apply mapColumns_returned in Hrun as [_ Hgroups].
  apply Forall_lookup. intros k column Hk.
  destruct (Hgroups k column Hk) as (style & pathStyle & ts & tp & Hs & Hp & _).
  by eapply styled_of_returned.
Qed.



End StyledFacts.

(** X6: [renderPaths] can return only when the style map of every listed
    column has both the line and the area sub-key; when it returns it has
    logged nothing and yields one group per column.  On an empty column
    list it returns the empty list without consulting any style. *)
Theorem renderPaths_returned_all_styled `{Externals} (props : Props.t)
    (columnList : list string) (direction : string) :
  (∀ t groups,
     AreaChart.renderPaths props columnList direction = Run t (Returned groups) →
     Forall (λ column, styled props column = true) columnList ∧
     t = [] ∧ length groups = length columnList) ∧
  AreaChart.renderPaths props [] direction = Run [] (Returned []).
Proof.
  split; [|done]. intros t groups Hrun. split; [|split].
  - by eapply mapColumns_all_styled.
  - by apply mapColumns_effects in Hrun.
  - by apply renderPaths_length in Hrun.
Qed.



(** X8: the groups returned by one call of [renderPaths] carry the keys
    "area-0", "area-1", ... in order, and no two groups of the call share
    a key. *)
Theorem group_keys_are_distinct `{Externals} (props : Props.t)
    (columnList : list string) (direction : string) t groups
    (k1 k2 : nat) key1 key2 children1 children2 :
  AreaChart.renderPaths props columnList direction = Run t (Returned groups) →
  groups !! k1 = Some (g key1 children1) →
  groups !! k2 = Some (g key2 children2) →
  key1 = Some ("area-" +:+ pretty k1) ∧
  key2 = Some ("area-" +:+ pretty k2) ∧
  (k1 ≠ k2 → key1 ≠ key2).
Proof.
  intros Hrun H1 H2.
  assert (∀ k key children,
            groups !! k = Some (g key children) → key = Some ("area-" +:+ pretty k)) as Hkey.
  { intros k key children Hk.
    destruct (lookup_lt_is_Some_2 columnList k) as [column Hcolumn].
    { rewrite <- (renderPaths_length props columnList direction t groups Hrun).
      by eapply lookup_lt_Some. }
    destruct (renderPaths_returned props columnList direction t groups k column
                Hrun Hcolumn) as (style & pathStyle & _ & _ & data & _ & _ & _ & Hg).
    rewrite Hg in Hk. unfold AreaChart.columnGroup in Hk. by injection Hk as <- _. }
  rewrite (Hkey k1 key1 children1 H1), (Hkey k2 key2 children2 H2).
  split; [done|]. split; [done|].
  intros Hne [= Heq]. apply Hne. by apply (inj pretty).
Qed.

Lemma group_keys_are_distinct_witness :
  ∃ key1 key2 children1 children2,
    Sample.up_groups !! 0%nat = Some (g key1 children1) ∧
    Sample.up_groups !! 1%nat = Some (g key2 children2) ∧
    key1 = Some "area-0" ∧ key2 = Some "area-1" ∧ key1 ≠ key2.
Proof.
  do 4 eexists. split; [reflexivity|]. split; [reflexivity|].
  split; [reflexivity|]. split; [reflexivity|].
  refine (proj2 (proj2 (group_keys_are_distinct Sample.props ["in"; "out"] "up" []
                          Sample.up_groups 0 1 _ _ _ _ eq_refl eq_refl eq_refl)) _).
  discriminate.
Defined.

Section RenderFacts.
Context `{Externals}.
Variable props : Props.t.

Lemma render_all_styled t element :
  AreaChart.render props = Run t (Returned element) →
  Forall (λ column, styled props column = true)
    (default [] (up (Props.columns props)) ++ default [] (down (Props.columns props))).
Proof.
  intros Hrun. unfold AreaChart.render, AreaChart.renderAreas in Hrun.
  apply bind_returned in Hrun as (areas & t1 & t2 & Hareas & _ & _).
  apply bind_returned in Hareas as (ups & t3 & t4 & Hups & Hareas & _).
  apply bind_returned in Hareas as (downs & t5 & t6 & Hdowns & _ & _).
  apply Forall_app. split; by eapply mapColumns_all_styled.
Qed.

(** The document of a render that returns. *)
Lemma render_returned t element :
  AreaChart.render props = Run t (Returned element) →
  ∃ ups downs,
    element = g None [g None [children_array ups; children_array downs]] ∧
    AreaChart.renderPaths props (default [] (up (Props.columns props))) "up"
      = Run [] (Returned ups) ∧
    AreaChart.renderPaths props (default [] (down (Props.columns props))) "down"
      = Run [] (Returned downs).
Proof.
  intros Hrun. unfold AreaChart.render, AreaChart.renderAreas in Hrun.
  apply bind_returned in Hrun as (areas & t1 & t2 & Hareas & Hrun & _).
  apply mret_returned in Hrun as [_ <-].
  apply bind_returned in Hareas as (ups & t3 & t4 & Hups & Hareas & _).
  apply bind_returned in Hareas as (downs & t5 & t6 & Hdowns & Hareas & _).
  apply mret_returned in Hareas as [_ <-].
  exists ups, downs. split; [done|].
  pose proof Hups as Hu. pose proof Hdowns as Hd.
  apply mapColumns_effects in Hu as ->. apply mapColumns_effects in Hd as ->.
  by split.
Qed.
End RenderFacts.

(** X9: [render] can return only when every column of the up and down
    lists is styled (its style map has the line and the area sub-key), an
    absent list counting as empty.  What it returns is a [<g>] holding a
    [<g>] with the groups of the up list followed by the groups of the
    down list, one per column, each direction being the result of its own
    call of [renderPaths]; nothing has been logged. *)
Theorem render_returned_all_styled `{Externals} (props : Props.t) t element :
  AreaChart.render props = Run t (Returned element) →
  let columnsUp := default [] (up (Props.columns props)) in
  let columnsDown := default [] (down (Props.columns props)) in
  Forall (λ column, styled props column = true) (columnsUp ++ columnsDown) ∧
  t = [] ∧
  ∃ ups downs,
    element = g None [g None [children_array ups; children_array downs]] ∧
    AreaChart.renderPaths props columnsUp "up" = Run [] (Returned ups) ∧
    AreaChart.renderPaths props columnsDown "down" = Run [] (Returned downs) ∧
    length ups = length columnsUp ∧ length downs = length columnsDown.
Proof.
  intros Hrun. cbv zeta. split; [by eapply render_all_styled|].
  split; [by eapply render_effects|].
  destruct (render_returned props t element Hrun) as (ups & downs & -> & Hups & Hdowns).
  exists ups, downs. split; [done|]. split; [done|]. split; [done|].
  split; by eapply renderPaths_length.
Qed.

Lemma render_returned_all_styled_witness :
  Forall (λ column, styled Sample.props column = true) (["in"; "out"] ++ ["out"]) ∧
  ∃ ups downs,
    AreaChart.render Sample.props
      = Run [] (Returned (g None [g None [children_array ups; children_array downs]])) ∧
    length ups = 2%nat ∧ length downs = 1%nat.
Proof.
  destruct (render_returned_all_styled Sample.props
              (trace (AreaChart.render Sample.props))
              (match result (AreaChart.render Sample.props) with
               | Returned element => element
               | Thrown _ => g None []
               end) eq_refl)
    as (Hstyled & _ & ups & downs & Helement & _ & _ & Hups & Hdowns).
  split; [exact Hstyled|].
  exists ups, downs. split; [|split; [exact Hups|exact Hdowns]].
  transitivity (Run (trace (AreaChart.render Sample.props))
                  (Returned (match result (AreaChart.render Sample.props) with
                             | Returned element => element
                             | Thrown _ => g None []
                             end))); [reflexivity|].
  by rewrite Helement.
Defined.

(** X10: rendering runs no handler: everything a render emits is a
    console message of [style], never a call of a callback prop nor a
    [stopPropagation]; and a render that returns has emitted nothing. *)
Theorem render_emits_only_style_messages `{Externals} (props : Props.t) :
  (∀ e, e ∈ trace (AreaChart.render props) → is_console_error e = true) ∧
  (∀ f arg, call f arg ∉ trace (AreaChart.render props)) ∧
  (∀ e, stop_propagation e ∉ trace (AreaChart.render props)) ∧
  (∀ t element, AreaChart.render props = Run t (Returned element) → t = []).
Proof.
  destruct (render_effects props) as [Hlogs Hsilent].
  assert (∀ e, e ∈ trace (AreaChart.render props) → is_console_error e = true) as Hall
    by (by apply Forall_forall).
  split; [done|]. split; [|split; [|done]].
  - intros f arg Hin. by apply Hall in Hin.
  - intros e Hin. by apply Hall in Hin.
Qed.

(** X11: a style object that has no entry for a column makes [style]
    log both messages, with an undefined style map, and throw on reading
    the requested type off undefined. *)
Theorem style_of_unlisted_column `{Externals} (props : Props.t)
    (object : gmap string AreaChartStyle) (column type : string) :
  type = "line" ∨ type = "area" →
  Props.style props = Some (inr object) →
  object !! column = None →
  AreaChart.style props column type
  = Run [outline_message None column; area_message None] (Thrown (TypeError type)).
Proof.
  intros Ht Hstyle Hcolumn.
  destruct (style_eq props column type Ht) as (builtin & _ & ->).
  unfold AreaChart.providedAreaStyleMap. by rewrite Hstyle, Hcolumn.
Qed.

Lemma style_of_unlisted_column_witness :
  AreaChart.style Cases.no_columns_styled "out" "line"
  = Run [outline_message None "out"; area_message None] (Thrown (TypeError "line")).
Proof.
  exact (style_of_unlisted_column Cases.no_columns_styled ∅ "out" "line"
           (or_introl eq_refl) eq_refl eq_refl).
Defined.

(** X12: an empty string in the selection prop, or in the highlight prop,
    is read as no selection, or no highlight: [style] runs as if the prop
    were absent, also for a column whose name is the empty string. *)
Theorem empty_string_prop_is_unset `{Externals} (props : Props.t) (column type : string) :
  AreaChart.style (Update.selection (Some "") props) column type
    = AreaChart.style (Update.selection None props) column type ∧
  AreaChart.style (Update.highlight (Some "") props) column type
    = AreaChart.style (Update.highlight None props) column type.
Proof. split; reflexivity. Qed.

(** X13: a selected column keeps its selected style while any column is
    hovered: when the selection prop names the column, [style] does not
    depend on the highlight prop. *)
Theorem selected_column_ignores_highlight `{Externals} (props : Props.t)
    (column type : string) (hovered : option string) :
  Props.selection props = Some column →
  column ≠ "" →
  AreaChart.style (Update.highlight hovered props) column type
  = AreaChart.style props column type.
Proof.
  intros Hselection Hcolumn.
  assert (truthy_string (Some column) = true) as Htruthy.
  { simpl. apply negb_true_iff. by apply String.eqb_neq. }
  unfold AreaChart.style, AreaChart.providedAreaStyleMap. simpl.
  rewrite Hselection, Htruthy. by rewrite bool_decide_eq_true_2.
Qed.

Lemma selected_column_ignores_highlight_witness :
  AreaChart.style (Update.highlight (Some "in") Cases.selected) "in" "area"
  = AreaChart.style Cases.selected "in" "area".
Proof.
  apply (selected_column_ignores_highlight Cases.selected "in" "area" (Some "in")).
  - reflexivity.
  - discriminate.
Defined.

(** X14: in the group of every rendered column the first path (the filled
    area) carries the style [style(column, "area")] returned and the second
    path (the outline) the style [style(column, "line")] returned, both
    without a console message. *)
Theorem paths_carry_area_and_line_styles `{Externals} (props : Props.t)
    (columnList : list string) (direction : string) t groups (k : nat) (column : string) :
  AreaChart.renderPaths props columnList direction = Run t (Returned groups) →
  columnList !! k = Some column →
  ∃ key d1 d2 areaStyle lineStyle onClick onMouseLeave onMouseMove,
    groups !! k = Some (g key [ path d1 areaStyle onClick onMouseLeave onMouseMove;
                                path d2 lineStyle onClick onMouseLeave onMouseMove ]) ∧
    AreaChart.style props column "area" = Run [] (Returned areaStyle) ∧
    AreaChart.style props column "line" = Run [] (Returned lineStyle).
Proof.
  intros Hrun Hk.
  destruct (renderPaths_returned props columnList direction t groups k column Hrun Hk)
    as (style & pathStyle & ts & tp & data & Hs & Hp & _ & Hg).
  destruct (styles_returned_silent props column ts tp style pathStyle Hs Hp) as [-> ->].
  rewrite Hg. unfold AreaChart.columnGroup. do 8 eexists. split; [reflexivity|].
  by split.
Qed.

Lemma paths_carry_area_and_line_styles_witness :
  ∃ key d1 d2 areaStyle lineStyle onClick onMouseLeave onMouseMove,
    Sample.up_groups !! 1%nat
      = Some (g key [ path d1 areaStyle onClick onMouseLeave onMouseMove;
                      path d2 lineStyle onClick onMouseLeave onMouseMove ]) ∧
    AreaChart.style Sample.props "out" "area" = Run [] (Returned areaStyle) ∧
    AreaChart.style Sample.props "out" "line" = Run [] (Returned lineStyle).
Proof.
  exact (paths_carry_area_and_line_styles Sample.props ["in"; "out"] "up" []
           Sample.up_groups 1 "out" eq_refl eq_refl).
Defined.

(** ** Updating *)

(** X15: [shouldComponentUpdate] never looks at the stack prop nor at the
    two callback props: when the nine tracked props are the same values and
    the width is not NaN it returns false, whatever stack,
    onHighlightChange and onSelectionChange have become. *)
Theorem shouldComponentUpdate_ignores_untracked_props `{Externals}
    (props nextProps : Props.t) :
  Props.series nextProps = Props.series props →
  Props.timeScale nextProps = Props.timeScale props →
  Props.width nextProps = Props.width props →
  Props.interpolation nextProps = Props.interpolation props →
  Props.columns nextProps = Props.columns props →
  Props.style nextProps = Props.style props →
  Props.yScale nextProps = Props.yScale props →
  Props.highlight nextProps = Props.highlight props →
  Props.selection nextProps = Props.selection props →
  PrimFloat.eqb (Props.width props) (Props.width props) = true →
  AreaChart.shouldComponentUpdate props nextProps = false.
Proof.
  intros Hseries HtimeScale Hwidth Hinterpolation Hcolumns Hstyle HyScale
    Hhighlight Hselection Hnumber.
  unfold AreaChart.shouldComponentUpdate, strict_neq, number_strict_neq, ref_strict_neq.
  cbv zeta.
  rewrite Hseries, HtimeScale, Hwidth, Hinterpolation, Hcolumns, Hstyle, HyScale,
    Hhighlight, Hselection, Hnumber.
  rewrite Nat.eqb_refl, TimeSeries_is_refl, Pos.eqb_refl.
  by rewrite !bool_decide_eq_true_2.
Qed.

Lemma shouldComponentUpdate_ignores_untracked_props_witness :
  Props.stack (Sample.with_stack None Sample.props) ≠ Props.stack Sample.props ∧
  AreaChart.shouldComponentUpdate Sample.props (Sample.with_stack None Sample.props)
  = false.
Proof.
  split; [discriminate|].
  exact (shouldComponentUpdate_ignores_untracked_props Sample.props
           (Sample.with_stack None Sample.props)
           eq_refl eq_refl eq_refl eq_refl eq_refl eq_refl eq_refl eq_refl eq_refl eq_refl).
Defined.

(** ** Baseline *)

(** X16: [Baseline.render] places the label only for the positions "left"
    and "right": for any other position the text element gets neither an
    [x] nor a [textAnchor] (both stay undefined), the rest of the group
    being drawn as usual. *)
Theorem baseline_other_position_leaves_label_unplaced
    (Number_toString : number → string)
    (lodash_merge : option CSSProperties → CSSProperties → CSSProperties)
    (baselineDefaultStyle : gmap string CSSProperties) (props : BaselineProps.t)
    (yScale : number → number) (value : number) :
  BaselineProps.yScale props = Some yScale →
  BaselineProps.value props = Some value →
  BaselineProps.position props ≠ "left" →
  BaselineProps.position props ≠ "right" →
  ∃ group,
    Baseline.render Number_toString lodash_merge baselineDefaultStyle props = Some group ∧
    Baseline.x (Baseline.label group) = None ∧
    Baseline.textAnchor (Baseline.label group) = None ∧
    Baseline.transform group = "translate(0 " +:+ Number_toString (yScale value) +:+ ")" ∧
    Baseline.points (Baseline.polyline group)
      = "0 0 " +:+ Number_toString (BaselineProps.width props) +:+ " 0".
Proof.
  intros HyScale Hvalue Hleft Hright. unfold Baseline.render.
  rewrite HyScale, Hvalue.
  apply String.eqb_neq in Hleft, Hright. rewrite Hleft, Hright.
  eexists. split; [reflexivity|]. by repeat split.
Qed.

Lemma baseline_other_position_leaves_label_unplaced_witness :
  ∃ group,
    Baseline.render Sample.Number_toString Sample.lodash_merge ∅ Cases.centered
      = Some group ∧
    Baseline.x (Baseline.label group) = None ∧
    Baseline.textAnchor (Baseline.label group) = None ∧
    Baseline.transform group = "translate(0 #)" ∧
    Baseline.points (Baseline.polyline group) = "0 0 # 0".
Proof.
  apply (baseline_other_position_leaves_label_unplaced Sample.Number_toString
           Sample.lodash_merge ∅ Cases.centered (λ v, 100 - v) 40).
  - reflexivity.
  - reflexivity.
  - discriminate.
  - discriminate.
Defined.



(** ** Arrays *)

(** X18: read with every JavaScript array as a cell of a heap, a render
    writes only to arrays it allocates itself (the offsets array of each
    [renderPaths] call, the data array of each column, the empty list put
    for an absent column list): run on any heap that holds the column lists
    of the [columns] prop, it returns what the array-free reading returns,
    every cell that existed before is unchanged after, and the heap still
    holds the same column lists. *)
Theorem render_writes_only_arrays_it_allocates `{Externals} (props : Props.t)
    (h : gmap positive Store.Cell) (up_at down_at : option positive) :
  Store.holds_columns props h up_at down_at →
  ∃ h', Store.render props up_at down_at h = (h', AreaChart.render props) ∧
        Store.keeps h h' ∧
        Store.holds_columns props h' up_at down_at.
Proof.
  intros Hholds.
  destruct (render_store props h up_at down_at Hholds) as (h' & Hrun & Hkeeps).
  exists h'. split; [done|]. split; [done|].
  destruct Hholds as [Hup Hdown]. unfold Store.holds_columns, Store.holds in *.
  split.
  - destruct up_at as [l|], (up (Props.columns props)); try done.
    rewrite Hkeeps; [done|]. by rewrite Hup.
  - destruct down_at as [l|], (down (Props.columns props)); try done.
    rewrite Hkeeps; [done|]. by rewrite Hdown.
Qed.

Lemma render_writes_only_arrays_it_allocates_witness :
  ∃ h', Store.render Sample.props (Some 1%positive) (Some 2%positive) Sample.heap
          = (h', AreaChart.render Sample.props) ∧
        Store.keeps Sample.heap h' ∧
        Store.holds_columns Sample.props h' (Some 1%positive) (Some 2%positive).
Proof.
  apply (render_writes_only_arrays_it_allocates Sample.props Sample.heap).
  split; reflexivity.
Defined.
